(** * Worker roster service

    A shallow embedding of the Express application in [index.js] and of the
    Mongoose schema in [models/Worker.js].

    - JavaScript values that reach the handlers (parsed JSON bodies, plus
      [undefined] for a property that is read but absent) are [jsval].
    - An [async] handler is a computation in the monad [M]: it threads the
      state of the persistence layer and either fulfils with the response it
      sent or rejects with the error that escaped it.
    - The handlers are written once against [WorkerModel], the part of the
      Mongoose model API that [index.js] calls.  [Mongo] gives a reference
      implementation of that API over a finite map from [_id] to stored
      fields, with the version key and the unique indexes the schema
      declares.  Coercion of a single value to a schema type is left to a
      [Casting] instance, and the database's language of update operators
      and pipelines to an [UpdateLanguage] instance. *)

From Stdlib Require Import ZArith Ascii String.
From stdpp Require Import base option list strings gmap fin_maps infinite.

#[local] Set Warnings "-register-all,-clear-no-such-hyp".
#[local] Open Scope string_scope.

(** ** JavaScript values *)

Inductive jsval : Type :=
  | JUndefined
  | JNull
  | JBool (b : bool)
  | JNum (n : Z)
  | JStr (s : string)
  | JArr (l : list jsval)
  | JObj (o : gmap string jsval).

(** An [Error] object; the handlers only ever read [message]. *)
Record Error : Type := mkError { ename : string; message : string }.

(** ** Asynchronous computations over a store *)

Inductive Outcome (A : Type) : Type :=
  | Ok (a : A)
  | Throw (e : Error).
Arguments Ok {A} a.
Arguments Throw {A} e.

Definition M (St A : Type) : Type := St -> Outcome A * St.

Definition ret {St A} (a : A) : M St A := fun st => (Ok a, st).

Definition throw {St A} (e : Error) : M St A := fun st => (Throw e, st).

Definition bind {St A B} (m : M St A) (k : A -> M St B) : M St B :=
  fun st =>
    match m st with
    | (Ok a, st') => k a st'
    | (Throw e, st') => (Throw e, st')
    end.

(** [try { body } catch (error) { handler }] *)
Definition try_catch {St A} (body : M St A) (handler : Error -> M St A) : M St A :=
  fun st =>
    match body st with
    | (Ok a, st') => (Ok a, st')
    | (Throw e, st') => handler e st'
    end.

Notation "x <- m ;; k" := (bind m (fun x => k))
  (at level 100, m at next level, right associativity).
Notation "m ;;; k" := (bind m (fun _ => k))
  (at level 100, right associativity).

(** [xs.map(f)] where [f] has effects: elements are visited left to right. *)
Fixpoint mapM {St A B} (f : A -> M St B) (xs : list A) : M St (list B) :=
  match xs with
  | [] => ret []
  | x :: xs' => y <- f x ;; ys <- mapM f xs' ;; ret (y :: ys)
  end.

Definition TypeError (msg : string) : Error := mkError "TypeError" msg.

(** [v.k] for the property names the handlers read.  Reading a property of
    [null] or [undefined] throws; a JSON array or primitive has no own
    property of those names. *)
Definition prop {St} (v : jsval) (k : string) : M St jsval :=
  match v with
  | JUndefined | JNull =>
      throw (TypeError ("Cannot read properties of null or undefined (reading '" ++ k ++ "')"))
  | JObj o => ret (default JUndefined (o !! k))
  | _ => ret JUndefined
  end.

(** [v.map(f)]: only arrays have the method. *)
Definition js_map {St B} (v : jsval) (f : jsval -> M St B) : M St (list B) :=
  match v with
  | JArr l => mapM f l
  | JUndefined | JNull =>
      throw (TypeError "Cannot read properties of null or undefined (reading 'map')")
  | _ => throw (TypeError "req.body.map is not a function")
  end.

(** The value [const { RMPaid } = req.body] binds, for a body that is
    neither [null] nor [undefined]. *)
Definition read_RMPaid (body : jsval) : jsval :=
  match body with
  | JObj o => default JUndefined (o !! "RMPaid")
  | _ => JUndefined
  end.

(** ** Documents and the schema of [models/Worker.js] *)

Inductive SchemaType : Type := TString | TNumber | TDate.

(** A stored field value.  Dates are kept as an instant, numbers as [Z]:
    the service never computes with either. *)
Inductive value : Type :=
  | VNull
  | VString (s : string)
  | VNumber (n : Z)
  | VDate (t : Z).

#[global] Instance value_eq_dec : EqDecision value.
Proof. solve_decision. Defined.

Record SchemaPath : Type := mkPath {
  path : string;
  type : SchemaType;
  required : bool;
  unique : bool
}.

(** [const workerSchema = new mongoose.Schema({ ... })].  [String], [Date]
    and [Number] shorthands declare a path that is neither required nor
    unique.  [unique] is not a validator: it has the database build a
    unique index on the path, which then refuses a second document with
    the same value there.  No options are given, so the schema has the
    version key [__v]. *)
Definition workerSchema : list SchemaPath :=
  [ mkPath "id" TNumber false true;
    mkPath "name" TString false false;
    mkPath "phoneNumber" TString false false;
    mkPath "status" TString false false;
    mkPath "passportNumber" TString false false;
    mkPath "permitVisaExpiry" TDate false false;
    mkPath "RMPaid" TNumber false false ].

(** A document: the identity key and the schema paths that are set. *)
Record Doc : Type := mkDoc { _id : N; fields : gmap string value }.

(** A document instance in the application: [new Worker(obj)] never throws
    on a value it cannot coerce, it keeps the error for [validate]. *)
Record Instance : Type := mkInstance {
  doc : Doc;
  castErrors : list (string * string)
}.

(** ** Responses *)

Inductive Body : Type :=
  | Text (s : string)
  | Null
  | Document (d : Doc)
  | Documents (ds : list Doc)
  | Message (m : string).

Record Response : Type := mkResponse { status : nat; body : Body }.

(** [res.json(worker)] for the result of a query for one document. *)
Definition json_of (worker : option Doc) : Body :=
  match worker with
  | Some d => Document d
  | None => Null
  end.

(** ** The model API used by [index.js] *)

Class WorkerModel (St : Type) : Type := {
  (** [new Worker(obj)] *)
  Worker : jsval -> M St Instance;
  (** [worker.save()].  The call changes [worker] in place; the instance
      it gives here is [worker] as it is once the call has fulfilled. *)
  save : Instance -> M St Instance;
  (** [Worker.find()] *)
  find : M St (list Doc);
  (** [Worker.findById(id)] *)
  findById : string -> M St (option Doc);
  (** [Worker.findByIdAndUpdate(id, update, { new })] *)
  findByIdAndUpdate : string -> jsval -> bool -> M St (option Doc);
  (** [Worker.insertMany(docs)].  The call changes the elements of [docs]
      in place; the list it gives here is [docs] as it is once the call
      has fulfilled. *)
  insertMany : list Instance -> M St (list Instance);
  (** [Worker.findByIdAndDelete(id)] *)
  findByIdAndDelete : string -> M St (option Doc);
  (** [Worker.deleteMany()] *)
  deleteMany : M St unit
}.

(** ** Handlers of [index.js]

    A handler fulfils with the one response it sends.  [res.json] and
    [res.send] without [res.status] answer 200. *)

Section Handlers.
Context {St : Type} `{WorkerModel St}.


(** [app.get("/workers")] *)
Definition get_workers : M St Response :=
  workers <- find ;;
  ret (mkResponse 200 (Documents workers)).

(** [app.get("/worker/:id")] *)
Definition get_worker (id : string) : M St Response :=
  worker <- findById id ;;
  ret (mkResponse 200 (json_of worker)).

(** [app.put("/worker/:id/updateRMPaid")] *)
Definition put_worker_updateRMPaid (id : string) (req_body : jsval) : M St Response :=
  RMPaid <- prop req_body "RMPaid" ;;
  worker <- findByIdAndUpdate id (JObj {[ "RMPaid" := RMPaid ]}) true ;;
  ret (mkResponse 200 (json_of worker)).

(** [app.put("/worker/:id")] *)
Definition put_worker (id : string) (req_body : jsval) : M St Response :=
  worker <- findByIdAndUpdate id req_body true ;;
  ret (mkResponse 200 (json_of worker)).

(** [app.post("/worker")] *)
Definition post_worker (req_body : jsval) : M St Response :=
  name <- prop req_body "name" ;;
  phoneNumber <- prop req_body "phoneNumber" ;;
  status <- prop req_body "status" ;;
  passportNumber <- prop req_body "passportNumber" ;;
  permitVisaExpiry <- prop req_body "permitVisaExpiry" ;;
  RMPaid <- prop req_body "RMPaid" ;;
  worker <- Worker (JObj (<["name" := name]>
                         (<["phoneNumber" := phoneNumber]>
                         (<["status" := status]>
                         (<["passportNumber" := passportNumber]>
                         (<["permitVisaExpiry" := permitVisaExpiry]>
                         (<["RMPaid" := RMPaid]> ∅))))))) ;;
  try_catch
    (worker <- save worker ;;
     ret (mkResponse 201 (Document (doc worker))))
    (fun error => ret (mkResponse 400 (Message (message error)))).

(** [app.post("/workers")] *)
Definition post_workers (req_body : jsval) : M St Response :=
  workers <- js_map req_body Worker ;;
  try_catch
    (workers <- insertMany workers ;;
     ret (mkResponse 201 (Documents (map doc workers))))
    (fun error => ret (mkResponse 400 (Message (message error)))).

(** [app.delete("/worker/:id")] *)
Definition delete_worker (id : string) : M St Response :=
  try_catch
    (worker <- findByIdAndDelete id ;;
     match worker with
     | None => ret (mkResponse 404 (Message "Worker not found"))
     | Some w => ret (mkResponse 200 (Document w))
     end)
    (fun error => ret (mkResponse 400 (Message (message error)))).

(** [app.delete("/workers")] *)
Definition delete_workers : M St Response :=
  deleteMany ;;;
  ret (mkResponse 200 (Message "All workers deleted")).

End Handlers.

(** The properties [app.post("/worker")] copies from the request body. *)
Definition copied : list string :=
  [ "name"; "phoneNumber"; "status"; "passportNumber"; "permitVisaExpiry"; "RMPaid" ].

(** The object literal it passes to [new Worker]. *)
Definition picked (o : gmap string jsval) : gmap string jsval :=
  <["name" := default JUndefined (o !! "name")]>
  (<["phoneNumber" := default JUndefined (o !! "phoneNumber")]>
  (<["status" := default JUndefined (o !! "status")]>
  (<["passportNumber" := default JUndefined (o !! "passportNumber")]>
  (<["permitVisaExpiry" := default JUndefined (o !! "permitVisaExpiry")]>
  (<["RMPaid" := default JUndefined (o !! "RMPaid")]> ∅))))).

(** ** The routes of the application

    One constructor per [app.get], [app.put], [app.post] and [app.delete]
    of [index.js], carrying the route parameter and the parsed body the
    handler reads. *)



(** A key of an update that names an update operator ([$set], [$inc],
    [$rename], ...). *)
Definition is_operator (k : string) : bool :=
  match k with
  | String "$"%char _ => true
  | _ => false
  end.

Definition has_operator (o : gmap string jsval) : bool :=
  existsb is_operator (map fst (map_to_list o)).

(** An update that is a plain set of fields, or no update at all:
    anything else (an object with operators, a pipeline) is written in
    the database's update language. *)
Definition plain_update (b : jsval) : bool :=
  match b with
  | JUndefined | JNull => true
  | JObj o => negb (has_operator o)
  | _ => false
  end.


(** A JSON value [new Worker] refuses. *)
Definition is_primitive (v : jsval) : bool :=
  match v with
  | JBool _ | JNum _ | JStr _ => true
  | _ => false
  end.

(** ** Coercion to the schema types

    Mongoose casts every value written to a path to the path's type and
    every identity key read from a URL or a body to an ObjectId.  What is
    accepted, and the wording of the rejection, belong to the library. *)

Inductive CastResult (A : Type) : Type :=
  | Cast (a : A)
  | CastFail (reason : string).
Arguments Cast {A} a.
Arguments CastFail {A} reason.

Class Casting : Type := {
  castObjectId : jsval -> CastResult N;
  castField : SchemaType -> jsval -> CastResult value
}.

(** ** The update language of the database

    [PUT /worker/:id] hands the request body to [findByIdAndUpdate] as it
    is.  A body with update operators, or an array (an aggregation
    pipeline), is carried out by the database in its own language:
    [runUpdate update i old] is what the document with key [i] and fields
    [old] becomes, or the error the database answers. *)

Class UpdateLanguage : Type := {
  runUpdate : jsval -> N -> gmap string value -> Outcome (gmap string value)
}.

(** ** Reference implementation of the model API

    Mongoose and the database are libraries outside the repository; this
    module states what the handlers rely on them to do.  A document is
    stored under its [_id], which the collection keeps unique, as it does
    every path the schema declares [unique].  Validation is the schema's:
    cast errors kept by the constructor, and required paths.  A schema
    with a version key has the path [__v], set to 0 on insert. *)

Module Mongo.

(** The [workers] collection keyed by [_id], and the identity keys the
    ObjectId generator has handed out so far. *)
Record Store : Type := mkStore {
  collection : gmap N (gmap string value);
  issued : gset N
}.

Definition CastError (reason : string) : Error := mkError "CastError" reason.

Definition ObjectParameterError : Error :=
  mkError "ObjectParameterError" "Parameter 'obj' to Document() must be an object".

(** The error of the [Model] constructor for a string argument. *)
Definition ModelArgumentError : Error :=
  TypeError "First argument to `Model` constructor must be an object, **not** a string. Make sure you're calling `mongoose.model()`, not `mongoose.Model()`.".

(** The error of the database for a second value under a unique index. *)
Definition DuplicateKey (index : string) : Error :=
  mkError "MongoServerError"
    ("E11000 duplicate key error collection: workers index: " ++ index).

Definition ImmutableField : Error :=
  mkError "MongoServerError"
    "Performing an update on the path '_id' would modify the immutable field '_id'".

Fixpoint describe (errs : list (string * string)) : string :=
  match errs with
  | [] => EmptyString
  | [(p, m)] => p ++ ": " ++ m
  | (p, m) :: rest => p ++ ": " ++ m ++ ", " ++ describe rest
  end.

Definition ValidationError (errs : list (string * string)) : Error :=
  mkError "ValidationError" ("Worker validation failed: " ++ describe errs).

(** The value of key [k] in an object literal, when it is not [undefined]. *)
Definition defined (o : gmap string jsval) (k : string) : option jsval :=
  match o !! k with
  | None | Some JUndefined => None
  | Some v => Some v
  end.

(** The path of the version key. *)
Definition versionPath : SchemaPath := mkPath "__v" TNumber false false.

(** The paths of a schema: those it declares, and the version key when
    it has one. *)
Definition paths_of (schema : list SchemaPath) (versionKey : bool) : list SchemaPath :=
  if versionKey then (schema ++ [versionPath])%list else schema.

(** What an index holds for a document at a path: a missing field is
    indexed as [null]. *)
Definition indexed (f : gmap string value) (p : string) : value :=
  default VNull (f !! p).

(** Some document other than [self] has value [v] at path [p]. *)
Definition in_use (c : gmap N (gmap string value)) (self : N) (p : string) (v : value) : bool :=
  existsb (fun kv => negb (bool_decide (kv.1 = self)) && bool_decide (indexed kv.2 p = v))
          (map_to_list c).

(** Some stored document has value [v] at path [p]. *)
Definition held (c : gmap N (gmap string value)) (p : string) (v : value) : bool :=
  existsb (fun kv => bool_decide (indexed kv.2 p = v)) (map_to_list c).

(** Some stored document has no [id]. *)
Definition unnumbered (c : gmap N (gmap string value)) : bool := held c "id" VNull.

(** The first unique index that refuses fields [fs] for the document
    [self].  An index is consulted for an insert ([old] is [None]) and
    for an update that changes the value at its path. *)
Definition conflict (schema : list SchemaPath) (c : gmap N (gmap string value))
    (self : N) (old : option (gmap string value)) (fs : gmap string value)
  : option SchemaPath :=
  List.find (fun p =>
          unique p
          && match old with
             | None => true
             | Some g => negb (bool_decide (indexed fs (path p) = indexed g (path p)))
             end
          && in_use c self (path p) (indexed fs (path p)))
       schema.

(** The name the database gives the index on a path. *)
Definition index_name (p : SchemaPath) : string := path p ++ "_1".

(** What [findByIdAndUpdate] is asked to do, once the update is cast. *)
Inductive Update : Type :=
  | Unchanged
  | Sets (key : option N) (sets : gmap string value)
  | Delegated (update : jsval).

Section WithCasting.
Context `{Casting} `{UpdateLanguage}.

(** Strict mode: only the paths of the schema are read from [o]; each
    one present is cast to its type. *)
Fixpoint castPaths (schema : list SchemaPath) (o : gmap string jsval)
  : gmap string value * list (string * string) :=
  match schema with
  | [] => (∅, [])
  | p :: ps =>
      let '(fs, errs) := castPaths ps o in
      match defined o (path p) with
      | None => (fs, errs)
      | Some v =>
          match castField (type p) v with
          | Cast x => (<[path p := x]> fs, errs)
          | CastFail m => (fs, (path p, m) :: errs)
          end
      end
  end.

(** [new ObjectId()]: a key that is neither stored nor handed out before. *)
Definition newObjectId : M Store N :=
  fun st =>
    let i := fresh (dom (collection st) ∪ issued st) in
    (Ok i, mkStore (collection st) ({[ i ]} ∪ issued st)).

Definition mongo_find : M Store (list Doc) :=
  fun st => (Ok (map (fun kv => mkDoc kv.1 kv.2) (map_to_list (collection st))), st).

Definition castId (id : string) : M Store N :=
  match castObjectId (JStr id) with
  | Cast i => ret i
  | CastFail m => throw (CastError m)
  end.

Definition mongo_findById (id : string) : M Store (option Doc) :=
  i <- castId id ;;
  fun st => (Ok (mkDoc i <$> collection st !! i), st).

Definition mongo_findByIdAndDelete (id : string) : M Store (option Doc) :=
  i <- castId id ;;
  fun st =>
    match collection st !! i with
    | None => (Ok None, st)
    | Some f => (Ok (Some (mkDoc i f)), mkStore (delete i (collection st)) (issued st))
    end.

Definition mongo_deleteMany : M Store unit :=
  fun st => (Ok (), mkStore ∅ (issued st)).

Section WithSchema.
Context (schema : list SchemaPath) (versionKey : bool).

Definition requiredErrors_in (fs : gmap string value) : list (string * string) :=
  omap (fun p =>
          if required p && negb (bool_decide (is_Some (fs !! path p)))
          then Some (path p, "Path `" ++ path p ++ "` is required.")
          else None)
       schema.

(** The instance [new Worker(obj)] builds from the own properties [o]
    of [obj].  The [_id] default is generated before the setters run;
    a castable [_id] of [obj] then replaces it. *)
Definition build_in (auto_id : N) (o : gmap string jsval) : Instance :=
  let '(fs, errs) := castPaths (paths_of schema versionKey) o in
  match defined o "_id" with
  | None => mkInstance (mkDoc auto_id fs) errs
  | Some v =>
      match castObjectId v with
      | Cast i => mkInstance (mkDoc i fs) errs
      | CastFail m => mkInstance (mkDoc auto_id fs) (("_id", m) :: errs)
      end
  end.

(** [new Worker(obj)]: the [Model] constructor refuses a string, the
    [Document] constructor any other primitive; anything else is read as
    an object (an array or [null] has none of the schema's paths). *)
Definition construct_in (obj : jsval) : M Store Instance :=
  match obj with
  | JStr _ => throw ModelArgumentError
  | JBool _ | JNum _ => throw ObjectParameterError
  | _ =>
      let o := match obj with JObj o => o | _ => ∅ end in
      auto_id <- newObjectId ;;
      ret (build_in auto_id o)
  end.

Definition validate_in (w : Instance) : M Store unit :=
  match (castErrors w ++ requiredErrors_in (fields (doc w)))%list with
  | [] => ret ()
  | errs => throw (ValidationError errs)
  end.

(** The document as it is inserted: the version key starts at 0. *)
Definition stamp_in (w : Instance) : Instance :=
  if versionKey
  then mkInstance (mkDoc (_id (doc w)) (<["__v" := VNumber 0]> (fields (doc w))))
                  (castErrors w)
  else w.

(** The insert of one document: refused when its [_id] is stored
    already, or when a unique index has its value. *)
Definition insertOne_in (d : Doc) : M Store unit :=
  fun st =>
    match collection st !! _id d with
    | Some _ => (Throw (DuplicateKey "_id_"), st)
    | None =>
        match conflict schema (collection st) (_id d) None (fields d) with
        | Some p => (Throw (DuplicateKey (index_name p)), st)
        | None => (Ok (), mkStore (<[_id d := fields d]> (collection st)) (issued st))
        end
    end.

Definition save_in (w : Instance) : M Store Instance :=
  validate_in w ;;;
  insertOne_in (doc (stamp_in w)) ;;;
  ret (stamp_in w).

(** Ordered insert: every document is validated before the first one
    is sent; the inserts then stop at the first one the database
    refuses. *)
Definition insertMany_in (ws : list Instance) : M Store (list Instance) :=
  mapM validate_in ws ;;;
  mapM insertOne_in (map doc (map stamp_in ws)) ;;;
  ret (map stamp_in ws).

(** The update as Mongoose sends it.  No update at all is a read.  A
    plain object is cast path by path and sets the fields it defines.
    An object with operators and an array are left to the database. *)
Definition castUpdate_in (update : jsval) : M Store Update :=
  match update with
  | JUndefined | JNull => ret Unchanged
  | JObj o =>
      if has_operator o then ret (Delegated update)
      else
        match castPaths (paths_of schema versionKey) o with
        | (sets, []) =>
            match defined o "_id" with
            | None => ret (Sets None sets)
            | Some v =>
                match castObjectId v with
                | Cast i => ret (Sets (Some i) sets)
                | CastFail m => throw (CastError m)
                end
            end
        | (_, (_, m) :: _) => throw (CastError m)
        end
  | _ => ret (Delegated update)
  end.

(** The fields of document [i] after an update. *)
Definition updated_in (u : Update) (i : N) (old : gmap string value)
  : Outcome (gmap string value) :=
  match u with
  | Unchanged => Ok old
  | Sets key sets =>
      if bool_decide (key = None ∨ key = Some i) then Ok (sets ∪ old)
      else Throw ImmutableField
  | Delegated update => runUpdate update i old
  end.

Definition findByIdAndUpdate_in (id : string) (update : jsval) (new : bool)
  : M Store (option Doc) :=
  i <- castId id ;;
  u <- castUpdate_in update ;;
  fun st =>
    match collection st !! i with
    | None => (Ok None, st)
    | Some old =>
        match updated_in u i old with
        | Throw e => (Throw e, st)
        | Ok updated =>
            match conflict schema (collection st) i (Some old) updated with
            | Some p => (Throw (DuplicateKey (index_name p)), st)
            | None =>
                (Ok (Some (mkDoc i (if new then updated else old))),
                 mkStore (<[i := updated]> (collection st)) (issued st))
            end
        end
    end.

Definition model_with : WorkerModel Store := {|
  Worker := construct_in;
  save := save_in;
  find := mongo_find;
  findById := mongo_findById;
  findByIdAndUpdate := findByIdAndUpdate_in;
  insertMany := insertMany_in;
  findByIdAndDelete := mongo_findByIdAndDelete;
  deleteMany := mongo_deleteMany
|}.

End WithSchema.

(** The model of [models/Worker.js]. *)
#[export] Instance model : WorkerModel Store := model_with workerSchema true.

(** The paths of [models/Worker.js], version key included. *)
Definition workerPaths : list SchemaPath := paths_of workerSchema true.

(** *** Predicates on request bodies *)

(** The value [o] gives to path [p], if any, can be cast to its type. *)
Definition castable (o : gmap string jsval) (p : SchemaPath) : bool :=
  match defined o (path p) with
  | None => true
  | Some v =>
      match castField (type p) v with
      | Cast _ => true
      | CastFail _ => false
      end
  end.

Definition castable_id (o : gmap string jsval) : bool :=
  match defined o "_id" with
  | None => true
  | Some v =>
      match castObjectId v with
      | Cast _ => true
      | CastFail _ => false
      end
  end.

(** A field set that passes validation: an object whose every schema
    path, identity key included, can be cast. *)
Definition valid_fields (v : jsval) : bool :=
  match v with
  | JObj o => forallb (castable o) workerPaths && castable_id o
  | _ => false
  end.

(** A field set that names no identity key of its own. *)
Definition keyless (v : jsval) : bool :=
  match v with
  | JObj o => match defined o "_id" with None => true | Some _ => false end
  | _ => false
  end.

Definition is_object (v : jsval) : bool :=
  match v with
  | JObj _ => true
  | _ => false
  end.

(** What the record built from [o] has at path [p]. *)
Definition cast_at (o : gmap string jsval) (p : SchemaPath) : option value :=
  match defined o (path p) with
  | Some v =>
      match castField (type p) v with
      | Cast x => Some x
      | CastFail _ => None
      end
  | None => None
  end.

(** The error [new Worker] throws for a primitive. *)
Definition refusal (v : jsval) : Error :=
  match v with
  | JStr _ => ModelArgumentError
  | _ => ObjectParameterError
  end.


(** The fields the update of the [updateRMPaid] endpoint sets, for the
    value [v] it read from the body. *)
Definition RMPaid_sets (v : jsval) : Outcome (gmap string value) :=
  match v with
  | JUndefined => Ok ∅
  | _ =>
      match castField TNumber v with
      | Cast x => Ok {[ "RMPaid" := x ]}
      | CastFail m => Throw (CastError m)
      end
  end.

End WithCasting.

End Mongo.

(** ** A concrete [Casting] and [UpdateLanguage]

    Used to run the model on concrete requests.  The caster accepts a
    value that already has the type of the path, [null], calendar dates
    written [YYYY-MM-DD], and identity keys written as 24 hexadecimal
    digits.  The update language knows the one operator [$set].  Mongoose
    and the database accept more than this (numeric strings as numbers,
    the other operators, pipelines); the theorems below hold for every
    [Casting] and every [UpdateLanguage]. *)

Module Plain.

Definition hex_digit (c : ascii) : option N :=
  let n := N_of_ascii c in
  if (48 <=? n)%N && (n <=? 57)%N then Some (n - 48)%N
  else if (97 <=? n)%N && (n <=? 102)%N then Some (n - 87)%N
  else if (65 <=? n)%N && (n <=? 70)%N then Some (n - 55)%N
  else None.

Fixpoint hex (s : string) (acc : N) : option N :=
  match s with
  | EmptyString => Some acc
  | String c s' =>
      match hex_digit c with
      | Some d => hex s' (16 * acc + d)%N
      | None => None
      end
  end.

Definition objectId_of_string (s : string) : option N :=
  if Nat.eqb (String.length s) 24 then hex s 0%N else None.

Definition digit (c : ascii) : option Z :=
  let n := N_of_ascii c in
  if (48 <=? n)%N && (n <=? 57)%N then Some (Z.of_N (n - 48)) else None.

Fixpoint digits (cs : list ascii) (acc : Z) : option Z :=
  match cs with
  | [] => Some acc
  | c :: cs' =>
      match digit c with
      | Some d => digits cs' (10 * acc + d)%Z
      | None => None
      end
  end.

(** [YYYY-MM-DD], packed as the number [YYYYMMDD]. *)
Definition date_of_string (s : string) : option Z :=
  match s with
  | String y1 (String y2 (String y3 (String y4 (String "-"
    (String m1 (String m2 (String "-"%char
    (String d1 (String d2 EmptyString))))))))) =>
      match digits [y1; y2; y3; y4] 0%Z, digits [m1; m2] 0%Z, digits [d1; d2] 0%Z with
      | Some y, Some m, Some d =>
          if (1 <=? m)%Z && (m <=? 12)%Z && (1 <=? d)%Z && (d <=? 31)%Z
          then Some (y * 10000 + m * 100 + d)%Z
          else None
      | _, _, _ => None
      end
  | _ => None
  end.

Definition plain_castObjectId (v : jsval) : CastResult N :=
  match v with
  | JStr s =>
      match objectId_of_string s with
      | Some i => Cast i
      | None => CastFail "Cast to ObjectId failed"
      end
  | _ => CastFail "Cast to ObjectId failed"
  end.

Definition plain_castField (t : SchemaType) (v : jsval) : CastResult value :=
  match t, v with
  | _, JNull => Cast VNull
  | TString, JStr s => Cast (VString s)
  | TString, _ => CastFail "Cast to string failed"
  | TNumber, JNum n => Cast (VNumber n)
  | TNumber, _ => CastFail "Cast to Number failed"
  | TDate, JNum n => Cast (VDate n)
  | TDate, JStr s =>
      match date_of_string s with
      | Some d => Cast (VDate d)
      | None => CastFail "Cast to date failed"
      end
  | TDate, _ => CastFail "Cast to date failed"
  end.

#[export] Instance casting : Casting := {|
  castObjectId := plain_castObjectId;
  castField := plain_castField
|}.

(** The server's answer to an operator it does not know. *)
Definition UnknownModifier : Error :=
  mkError "MongoServerError" "Unknown modifier".

(** [{ $set: { ... } }] sets the cast fields; nothing else is known. *)
Definition plain_runUpdate (update : jsval) (i : N) (old : gmap string value)
  : Outcome (gmap string value) :=
  match update with
  | JObj o =>
      match map_to_list o with
      | [(k, JObj s)] =>
          if String.eqb k "$set" then
            match Mongo.castPaths Mongo.workerPaths s with
            | (sets, []) => Ok (sets ∪ old)
            | (_, (_, m) :: _) => Throw (Mongo.CastError m)
            end
          else Throw UnknownModifier
      | _ => Throw UnknownModifier
      end
  | _ => Throw UnknownModifier
  end.

#[export] Instance updates : UpdateLanguage := {|
  runUpdate := plain_runUpdate
|}.

End Plain.

(** ** A model with no database behind it

    Mongoose buffers a call made while the connection is down and rejects
    it when the buffer times out.  Every call of this model does so. *)

Module Offline.

Definition BufferingTimedOut : Error :=
  mkError "MongooseError" "Operation `workers` buffering timed out after 10000ms".

#[export] Instance model : WorkerModel unit := {|
  Worker := fun _ => ret (mkInstance (mkDoc 0 ∅) []);
  save := fun _ => throw BufferingTimedOut;
  find := throw BufferingTimedOut;
  findById := fun _ => throw BufferingTimedOut;
  findByIdAndUpdate := fun _ _ _ => throw BufferingTimedOut;
  insertMany := fun _ => throw BufferingTimedOut;
  findByIdAndDelete := fun _ => throw BufferingTimedOut;
  deleteMany := throw BufferingTimedOut
|}.

End Offline.

(** ** The other versions of the schema

    The repository holds [models/Worker.js] in several versions; the
    reference implementation runs the handlers against each of them. *)

Import Mongo.

Module Variant.

(** The model for a schema given without options: it has the version
    key. *)
Definition model_in `{Casting} `{UpdateLanguage} (schema : list SchemaPath)
  : WorkerModel Store :=
  model_with schema true.

(** The version with the six fields only.  It is given the option
    [{ versionKey: false }]: its model is [model_with workerSchema_six
    false]. *)
Definition workerSchema_six : list SchemaPath :=
  [ mkPath "name" TString false false;
    mkPath "phoneNumber" TString false false;
    mkPath "status" TString false false;
    mkPath "passportNumber" TString false false;
    mkPath "permitVisaExpiry" TDate false false;
    mkPath "RMPaid" TNumber false false ].

(** The version with [id: { type: Number, required: true, unique: true }]. *)
Definition workerSchema_required_id : list SchemaPath :=
  mkPath "id" TNumber true true :: workerSchema_six.


End Variant.

(** ** Sample data *)

(** A store holding one worker, used to run the statements below. *)
Definition ana_id : N := 255.
Definition ana_key : string := "0000000000000000000000ff".
Definition ana_fields : gmap string value :=
  {[ "name" := VString "Ana"; "RMPaid" := VNumber 100 ]}.
Definition ana_store : Store := mkStore {[ ana_id := ana_fields ]} ∅.
Definition empty_store : Store := mkStore ∅ ∅.

(** The key the generator draws first on [empty_store], as it is written
    in a URL. *)
Definition first_key : string := "000000000000000000000000".

(** A URL segment that is not an identity key. *)
Definition not_a_key : string := "abc".

(** Request bodies. *)
Definition ana_body : gmap string jsval :=
  {[ "name" := JStr "Ana"; "RMPaid" := JNum 100 ]}.
Definition ana_body_extra : gmap string jsval :=
  <["_id" := JStr ana_key]> (<["id" := JNum 7]> (<["nationality" := JStr "PH"]> ana_body)).
Definition bad_date_body : gmap string jsval :=
  {[ "name" := JStr "Ana"; "permitVisaExpiry" := JStr "not-a-date" ]}.
Definition raise_body : gmap string jsval := {[ "RMPaid" := JNum 150 ]}.
Definition rename_body : gmap string jsval := {[ "name" := JStr "Ana Cruz" ]}.
Definition set_body : gmap string jsval := {[ "$set" := JObj rename_body ]}.
Definition twin : jsval := JObj {[ "_id" := JStr ana_key; "name" := JStr "Ana" ]}.
Definition tagged_body : gmap string jsval :=
  {[ "name" := JStr "Ana Cruz"; "nationality" := JStr "PH" ]}.
Definition costly_body : gmap string jsval := {[ "RMPaid" := JStr "a lot" ]}.

(** Ana as single create stores her: the version key is set, and she has
    no [id]. *)
Definition ana_saved : gmap string value := <["__v" := VNumber 0]> ana_fields.

(** The store after Ana is created on [empty_store]. *)
Definition first_store : Store := mkStore {[ 0%N := ana_saved ]} {[ 0%N ]}.

(** * What a handler does with the outcome of its store call

    These hold for every implementation of the model API. *)

Section Boundary.
Context {St : Type} `{WorkerModel St}.

Lemma delete_worker_found id w st st' :
  findByIdAndDelete id st = (Ok (Some w), st') ->
  delete_worker id st = (Ok (mkResponse 200 (Document w)), st').
Proof. intros E. unfold delete_worker, try_catch, bind. by rewrite E. Qed.

Lemma delete_worker_missing id st st' :
  findByIdAndDelete id st = (Ok None, st') ->
  delete_worker id st = (Ok (mkResponse 404 (Message "Worker not found")), st').
Proof. intros E. unfold delete_worker, try_catch, bind. by rewrite E. Qed.

Lemma delete_worker_caught id e st st' :
  findByIdAndDelete id st = (Throw e, st') ->
  delete_worker id st = (Ok (mkResponse 400 (Message (message e))), st').
Proof. intros E. unfold delete_worker, try_catch, bind. by rewrite E. Qed.

Lemma get_workers_escapes e st st' :
  find st = (Throw e, st') -> get_workers st = (Throw e, st').
Proof. intros E. unfold get_workers, bind. by rewrite E. Qed.

Lemma get_worker_escapes id e st st' :
  findById id st = (Throw e, st') -> get_worker id st = (Throw e, st').
Proof. intros E. unfold get_worker, bind. by rewrite E. Qed.

Lemma put_worker_escapes id b e st st' :
  findByIdAndUpdate id b true st = (Throw e, st') ->
  put_worker id b st = (Throw e, st').
Proof. intros E. unfold put_worker, bind. by rewrite E. Qed.

Lemma delete_workers_escapes e st st' :
  deleteMany st = (Throw e, st') -> delete_workers st = (Throw e, st').
Proof. intros E. unfold delete_workers, bind. by rewrite E. Qed.

Lemma get_worker_null id st st' :
  findById id st = (Ok None, st') ->
  get_worker id st = (Ok (mkResponse 200 Null), st').
Proof. intros E. unfold get_worker, bind. by rewrite E. Qed.

(** A body that is an array or a primitive has none of the six
    properties: it is treated as the empty object. *)
Lemma post_worker_no_own_fields b st :
  match b with JObj _ | JNull | JUndefined => False | _ => True end ->
  post_worker b st = post_worker (JObj ∅) st.
Proof. destruct b; intros []; reflexivity. Qed.

(** Two bodies with the same six properties are not told apart. *)
Lemma post_worker_picked o1 o2 st :
  picked o1 = picked o2 -> post_worker (JObj o1) st = post_worker (JObj o2) st.
Proof.
  intros E.
  change (post_worker (JObj o1) st)
    with ((worker <- Worker (JObj (picked o1)) ;;
           try_catch
             (worker <- save worker ;; ret (mkResponse 201 (Document (doc worker))))
             (fun error => ret (mkResponse 400 (Message (message error))))) st).
  by rewrite E.
Qed.

Lemma post_worker_object o st :
  post_worker (JObj o) st
  = (worker <- Worker (JObj (picked o)) ;;
     try_catch
       (worker <- save worker ;; ret (mkResponse 201 (Document (doc worker))))
       (fun error => ret (mkResponse 400 (Message (message error))))) st.
Proof. reflexivity. Qed.

(** X1.  The three handlers with a [try] block answer whatever their
    store call does: delete by id always answers, with 200, 404 or 400;
    once [new Worker] has built its instances, single and bulk create
    answer 201, with the instances as the call leaves them, when [save]
    or [insertMany] fulfils and 400 with the error's message when it
    rejects.  This holds for every implementation of the model API. *)
Theorem guarded_handlers_answer (st : St) :
  (forall id, exists r st',
      delete_worker id st = (Ok r, st')
      /\ (status r = 200 \/ status r = 404 \/ status r = 400))
  /\ (forall o w st1,
      Worker (JObj (picked o)) st = (Ok w, st1) ->
      (exists w' st', save w st1 = (Ok w', st')
                      /\ post_worker (JObj o) st
                         = (Ok (mkResponse 201 (Document (doc w'))), st'))
      \/ (exists e st', save w st1 = (Throw e, st')
                        /\ post_worker (JObj o) st
                           = (Ok (mkResponse 400 (Message (message e))), st')))
  /\ (forall items ws st1,
      mapM Worker items st = (Ok ws, st1) ->
      (exists ws' st', insertMany ws st1 = (Ok ws', st')
                       /\ post_workers (JArr items) st
                          = (Ok (mkResponse 201 (Documents (map doc ws'))), st'))
      \/ (exists e st', insertMany ws st1 = (Throw e, st')
                        /\ post_workers (JArr items) st
                           = (Ok (mkResponse 400 (Message (message e))), st'))).
Proof.
  split_and!.
  - intros id. unfold delete_worker, try_catch, bind.
    destruct (findByIdAndDelete id st) as [[[w|]|e] st']; eexists _, _;
      (split; [reflexivity|]); cbn; auto.
  - intros o w st1 E. rewrite post_worker_object. unfold try_catch, bind.
    rewrite E.
    destruct (save w st1) as [[w'|e] st'] eqn:Es; [left | right]; eauto.
  - intros items ws st1 E. unfold post_workers, js_map, try_catch, bind.
    rewrite E.
    destruct (insertMany ws st1) as [[ws'|e] st'] eqn:Es; [left | right]; eauto.
Qed.


End Boundary.

Lemma mapM_cons {St A B : Type} (f : A -> M St B) x xs st :
  mapM f (x :: xs) st
  = match f x st with
    | (Ok y, st1) =>
        match mapM f xs st1 with
        | (Ok ys, st2) => (Ok (y :: ys), st2)
        | (Throw e, st2) => (Throw e, st2)
        end
    | (Throw e, st1) => (Throw e, st1)
    end.
Proof.
  cbn [mapM]. unfold bind. destruct (f x st) as [[y|e] st1]; [|done].
  by destruct (mapM f xs st1) as [[ys|e] st2].
Qed.

(** * The service over the reference store *)

Section Service.
Context `{Casting} `{UpdateLanguage}.
Import Variant.

Lemma castId_ok id i st :
  castObjectId (JStr id) = Cast i -> castId id st = (Ok i, st).
Proof. intros E. unfold castId. by rewrite E. Qed.

(** *** Casting an object against the schema *)

Lemma castPaths_errors_nil schema o :
  (castPaths schema o).2 = [] <-> forallb (castable o) schema = true.
Proof.
  induction schema as [|p ps IH]; cbn [castPaths forallb]; [done|].
  destruct (castPaths ps o) as [fs errs]. unfold castable at 1.
  destruct (defined o (path p)) as [v|]; [destruct (castField (type p) v)|];
    cbn in *; try exact IH.
  split; discriminate.
Qed.

Lemma castPaths_error_at schema o p v m :
  p ∈ schema -> defined o (path p) = Some v -> castField (type p) v = CastFail m ->
  (path p, m) ∈ (castPaths schema o).2.
Proof.
  intros Hp Hv Hm. induction schema as [|q qs IH]; [by apply not_elem_of_nil in Hp|].
  cbn [castPaths]. destruct (castPaths qs o) as [fs errs]. cbn in IH.
  apply elem_of_cons in Hp as [<-|Hp].
  - rewrite Hv, Hm. cbn. left.
  - specialize (IH Hp).
    destruct (defined o (path q)) as [w|]; [destruct (castField (type q) w)|];
      cbn; try done. by right.
Qed.

Lemma castPaths_field schema o k x :
  (castPaths schema o).1 !! k = Some x -> is_Some (defined o k).
Proof.
  induction schema as [|p ps IH]; cbn [castPaths]; [cbn; by rewrite lookup_empty|].
  destruct (castPaths ps o) as [fs errs]. cbn in IH.
  destruct (defined o (path p)) as [v|] eqn:Ev; [destruct (castField (type p) v)|];
    cbn; try exact IH.
  destruct (decide (path p = k)) as [<-|Hne].
  - intros _. by rewrite Ev.
  - by rewrite lookup_insert_ne.
Qed.

Lemma castPaths_in_schema sch o k x :
  (castPaths sch o).1 !! k = Some x -> k ∈ map path sch.
Proof.
  induction sch as [|p ps IH]; cbn [castPaths]; [cbn; by rewrite lookup_empty|].
  destruct (castPaths ps o) as [fs errs]. cbn in IH. cbn [map].
  destruct (defined o (path p)) as [v|]; [destruct (castField (type p) v)|];
    cbn; try (intros Hx; right; by apply IH).
  destruct (decide (path p = k)) as [<-|Hne]; [left|].
  rewrite lookup_insert_ne by done. intros Hx. right. by apply IH.
Qed.

Lemma castPaths_undefined sch o k :
  defined o k = None -> (castPaths sch o).1 !! k = None.
Proof.
  intros Hk. destruct ((castPaths sch o).1 !! k) as [x|] eqn:E; [|done].
  apply castPaths_field in E. rewrite Hk in E. by destruct E.
Qed.

Lemma castPaths_skip_undefined p ps o :
  defined o (path p) = None -> castPaths (p :: ps) o = castPaths ps o.
Proof. intros E. cbn [castPaths]. rewrite E. by destruct (castPaths ps o). Qed.

Lemma castPaths_lookup sch o p :
  NoDup (map path sch) -> p ∈ sch ->
  (castPaths sch o).1 !! path p = cast_at o p.
Proof.
  unfold cast_at. induction sch as [|q qs IH]; intros Hnd Hp;
    [by apply not_elem_of_nil in Hp|].
  cbn [map] in Hnd. apply NoDup_cons in Hnd as [Hq Hnd].
  assert (Hfresh : (castPaths qs o).1 !! path q = None).
  { destruct ((castPaths qs o).1 !! path q) as [x|] eqn:E; [|done].
    apply castPaths_in_schema in E. done. }
  cbn [castPaths]. destruct (castPaths qs o) as [fs errs] eqn:Eqs. cbn [fst] in *.
  apply elem_of_cons in Hp as [->|Hp].
  - destruct (defined o (path q)) as [v|]; [destruct (castField (type q) v)|];
      cbn [fst]; [by rewrite lookup_insert_eq | done | done].
  - assert (Hne : path q <> path p).
    { intros Heq. apply Hq. rewrite Heq. by apply list_elem_of_fmap_2. }
    destruct (defined o (path q)) as [v|]; [destruct (castField (type q) v)|];
      cbn [fst]; rewrite ?lookup_insert_ne by done; by apply IH.
Qed.

Lemma castPaths_version sch o :
  defined o "__v" = None ->
  castPaths (paths_of sch true) o = castPaths sch o.
Proof.
  intros Hv. unfold paths_of. induction sch as [|p ps IH].
  - cbn. by rewrite Hv.
  - cbn [app castPaths]. by rewrite IH.
Qed.

(** *** The unique indexes *)

Lemma held_spec c p v :
  held c p v = true <-> exists j f, c !! j = Some f /\ indexed f p = v.
Proof.
  unfold held. rewrite existsb_exists. split.
  - intros ([j f] & Hin & Hv). apply list_elem_of_In, elem_of_map_to_list in Hin.
    apply bool_decide_eq_true in Hv. by exists j, f.
  - intros (j & f & Hj & Hv). exists (j, f). split.
    + by apply list_elem_of_In, elem_of_map_to_list.
    + by apply bool_decide_eq_true.
Qed.

Lemma in_use_spec c self p v :
  in_use c self p v = true
  <-> exists j f, c !! j = Some f /\ j <> self /\ indexed f p = v.
Proof.
  unfold in_use. rewrite existsb_exists. split.
  - intros ([j f] & Hin & Hv). apply list_elem_of_In, elem_of_map_to_list in Hin.
    apply andb_true_iff in Hv as [Hne Hv].
    apply negb_true_iff, bool_decide_eq_false in Hne.
    apply bool_decide_eq_true in Hv. by exists j, f.
  - intros (j & f & Hj & Hne & Hv). exists (j, f). split.
    + by apply list_elem_of_In, elem_of_map_to_list.
    + apply andb_true_iff. split; [|by apply bool_decide_eq_true].
      by apply negb_true_iff, bool_decide_eq_false.
Qed.

Lemma in_use_new c self p v :
  c !! self = None -> in_use c self p v = held c p v.
Proof.
  intros Hnew. apply eq_true_iff_eq. rewrite in_use_spec, held_spec. split.
  - intros (j & f & Hj & _ & Hv). by exists j, f.
  - intros (j & f & Hj & Hv). exists j, f. split_and!; [done| |done]. congruence.
Qed.

Lemma held_insert c i f p v :
  c !! i = None ->
  held (<[i := f]> c) p v = true <-> indexed f p = v \/ held c p v = true.
Proof.
  intros Hi. rewrite !held_spec. split.
  - intros (j & g & Hj & Hv). apply lookup_insert_Some in Hj as [[<- <-]|[_ Hj]];
      [by left | right; by exists j, g].
  - intros [Hv|(j & g & Hj & Hv)].
    + exists i, f. by rewrite lookup_insert_eq.
    + exists j, g. rewrite lookup_insert_ne; [done | congruence].
Qed.

(** The schema of [models/Worker.js] has one unique index, on [id]. *)
Lemma conflict_workerSchema c self old fs :
  conflict workerSchema c self old fs
  = if match old with
       | None => true
       | Some g => negb (bool_decide (indexed fs "id" = indexed g "id"))
       end
       && in_use c self "id" (indexed fs "id")
    then Some (mkPath "id" TNumber false true)
    else None.
Proof. unfold conflict, workerSchema. cbn. by destruct (_ && _). Qed.

(** An update that leaves the value at every unique path as it was
    meets no index. *)
Lemma conflict_unmoved sch c self g fs :
  (forall p, p ∈ sch -> unique p = true -> indexed fs (path p) = indexed g (path p)) ->
  conflict sch c self (Some g) fs = None.
Proof.
  intros Hsame. unfold conflict. induction sch as [|p ps IH]; [done|].
  cbn [List.find]. destruct (unique p) eqn:Hu; cbn [andb].
  - rewrite (Hsame p) by (done || left). rewrite bool_decide_eq_true_2 by done.
    cbn. apply IH. intros q Hq. apply Hsame. by right.
  - apply IH. intros q Hq. apply Hsame. by right.
Qed.

Lemma conflict_no_index sch c self old fs :
  forallb (fun p => negb (unique p)) sch = true ->
  conflict sch c self old fs = None.
Proof.
  intros Hno. unfold conflict. induction sch as [|p ps IH]; [done|].
  cbn in Hno. apply andb_true_iff in Hno as [Hp Hno].
  cbn [List.find]. apply negb_true_iff in Hp. rewrite Hp. cbn. by apply IH.
Qed.

(** *** The operations of the store, for any schema *)

Section Stores.
Context (schema : list SchemaPath) (versionKey : bool).

Lemma build_in_fields auto_id o :
  fields (doc (build_in schema versionKey auto_id o))
  = (castPaths (paths_of schema versionKey) o).1.
Proof.
  unfold build_in. destruct (castPaths (paths_of schema versionKey) o) as [fs errs].
  destruct (defined o "_id") as [v|]; [destruct (castObjectId v)|]; done.
Qed.

Lemma build_in_keyless auto_id o :
  defined o "_id" = None ->
  _id (doc (build_in schema versionKey auto_id o)) = auto_id
  /\ castErrors (build_in schema versionKey auto_id o)
     = (castPaths (paths_of schema versionKey) o).2.
Proof.
  intros E. unfold build_in.
  destruct (castPaths (paths_of schema versionKey) o). by rewrite E.
Qed.

Lemma build_in_errors_nil auto_id o :
  castErrors (build_in schema versionKey auto_id o) = []
  <-> forallb (castable o) (paths_of schema versionKey) && castable_id o = true.
Proof.
  unfold build_in, castable_id. rewrite andb_true_iff.
  rewrite <- castPaths_errors_nil.
  destruct (castPaths (paths_of schema versionKey) o) as [fs errs].
  destruct (defined o "_id") as [v|]; [destruct (castObjectId v)|]; cbn;
    try tauto.
  split; [discriminate | intros [_ ?]; discriminate].
Qed.

Lemma build_in_schema auto_id o k :
  is_Some (fields (doc (build_in schema versionKey auto_id o)) !! k) ->
  k ∈ map path (paths_of schema versionKey).
Proof. rewrite build_in_fields. intros [x Hx]. by eapply castPaths_in_schema. Qed.

Lemma construct_in_object o st :
  construct_in schema versionKey (JObj o) st
  = (Ok (build_in schema versionKey (fresh (dom (collection st) ∪ issued st)) o),
     mkStore (collection st) ({[ fresh (dom (collection st) ∪ issued st) ]} ∪ issued st)).
Proof. reflexivity. Qed.

Lemma construct_in_state obj st :
  collection (construct_in schema versionKey obj st).2 = collection st
  /\ forall w, (construct_in schema versionKey obj st).1 = Ok w ->
       exists a o, w = build_in schema versionKey a o.
Proof.
  destruct obj; cbn; (split; [done|]); intros w [= <-]; eauto.
Qed.

Lemma mapM_construct_in_state items st :
  collection (mapM (construct_in schema versionKey) items st).2 = collection st
  /\ forall ws, (mapM (construct_in schema versionKey) items st).1 = Ok ws ->
       Forall (fun w => exists a o, w = build_in schema versionKey a o) ws.
Proof.
  revert st. induction items as [|v items IH]; intros st.
  - cbn. split; [done|]. intros ws [= <-]. constructor.
  - rewrite mapM_cons.
    destruct (construct_in_state v st) as [Hc Hw].
    destruct (construct_in schema versionKey v st) as [[w|e] st1]; cbn in Hc, Hw; [|done].
    destruct (IH st1) as [Hc1 Hws].
    destruct (mapM (construct_in schema versionKey) items st1) as [[ws|e] st2];
      cbn in Hc1, Hws |- *; (split; [congruence|]); [|done].
    intros ws' [= <-]. constructor; [by apply Hw | by apply Hws].
Qed.

(** The first primitive of an array stops [map]: the constructor throws
    for it, and the elements before it have only drawn keys. *)
Lemma mapM_construct_primitive items v st :
  List.find is_primitive items = Some v ->
  exists st', mapM (construct_in schema versionKey) items st = (Throw (refusal v), st')
              /\ collection st' = collection st.
Proof.
  revert st. induction items as [|u items IH]; intros st Hex; [discriminate|].
  rewrite mapM_cons. cbn [List.find] in Hex.
  destruct (is_primitive u) eqn:Hu.
  - injection Hex as ->. destruct v; try discriminate; by exists st.
  - destruct (construct_in_state u st) as [Hc _].
    destruct (construct_in schema versionKey u st) as [[w|e] st1] eqn:Ec; cbn in Hc.
    + destruct (IH st1 Hex) as (st' & E & Hc'). rewrite E.
      exists st'. split; [done | congruence].
    + destruct u; discriminate.
Qed.

Lemma validate_in_state w st : (validate_in schema w st).2 = st.
Proof. unfold validate_in. by destruct (_ ++ _)%list. Qed.

Lemma validate_in_ok w st :
  castErrors w = [] -> requiredErrors_in schema (fields (doc w)) = [] ->
  validate_in schema w st = (Ok (), st).
Proof. intros E R. unfold validate_in. by rewrite E, R. Qed.

Lemma validate_in_fail w st :
  castErrors w <> [] ->
  exists errs, validate_in schema w st = (Throw (ValidationError errs), st)
               /\ errs <> [] /\ forall e, e ∈ castErrors w -> e ∈ errs.
Proof.
  intros E. unfold validate_in.
  destruct (castErrors w ++ requiredErrors_in schema (fields (doc w)))%list
    as [|e errs] eqn:Eerrs.
  - apply app_eq_nil in Eerrs as [? _]. done.
  - exists (e :: errs). split_and!; [done..|].
    intros e' He'. rewrite <- Eerrs. apply elem_of_app. by left.
Qed.

Lemma mapM_validate_in_state ws st : (mapM (validate_in schema) ws st).2 = st.
Proof.
  induction ws as [|w ws IH]; [done|]. rewrite mapM_cons.
  pose proof (validate_in_state w st) as Hv.
  destruct (validate_in schema w st) as [[u|e] st1]; cbn in Hv; subst st1; [|done].
  destruct (mapM (validate_in schema) ws st) as [[us|e] st1];
    cbn in IH; by subst.
Qed.


Lemma mapM_validate_in_fail ws st :
  Exists (fun w => castErrors w <> []) ws ->
  exists errs, mapM (validate_in schema) ws st = (Throw (ValidationError errs), st)
               /\ errs <> [].
Proof.
  induction ws as [|w ws IH]; intros Hex; [by apply Exists_nil in Hex|].
  rewrite mapM_cons.
  pose proof (validate_in_state w st) as Hs.
  destruct (validate_in schema w st) as [[[]|e] st1] eqn:Ev; cbn in Hs; subst st1.
  - apply Exists_cons in Hex as [Hw|Hex].
    + destruct (validate_in_fail w st Hw) as (errs & E & _). congruence.
    + destruct (IH Hex) as (errs & E & Hne). rewrite E. by exists errs.
  - unfold validate_in in Ev.
    destruct (castErrors w ++ requiredErrors_in schema (fields (doc w)))%list
      as [|e' errs] eqn:Eerrs; [discriminate|].
    injection Ev as <-. by exists (e' :: errs).
Qed.

Lemma stamp_in_id w : _id (doc (stamp_in versionKey w)) = _id (doc w).
Proof. unfold stamp_in. by destruct versionKey. Qed.

Lemma stamp_in_schema w k :
  is_Some (fields (doc (stamp_in versionKey w)) !! k) ->
  is_Some (fields (doc w) !! k) \/ k ∈ map path (paths_of schema versionKey).
Proof.
  unfold stamp_in, paths_of. destruct versionKey; [|by left]. cbn.
  destruct (decide (k = "__v")) as [->|Hne].
  - intros _. right. rewrite map_app. apply elem_of_app. right. cbn. left.
  - rewrite lookup_insert_ne by done. by left.
Qed.

Lemma insertOne_in_state d st :
  (insertOne_in schema d st).2 = st
  \/ (insertOne_in schema d st
      = (Ok (), mkStore (<[_id d := fields d]> (collection st)) (issued st))
      /\ collection st !! _id d = None
      /\ conflict schema (collection st) (_id d) None (fields d) = None).
Proof.
  unfold insertOne_in. destruct (collection st !! _id d) eqn:E; [by left|].
  destruct (conflict schema (collection st) (_id d) None (fields d)); [by left|].
  by right.
Qed.

(** The collection after an ordered insert: what was there is there, and
    what is new is one of the documents sent. *)
Lemma mapM_insertOne_in_state ds st :
  (forall i f, collection st !! i = Some f ->
               collection (mapM (insertOne_in schema) ds st).2 !! i = Some f)
  /\ (forall i f, collection (mapM (insertOne_in schema) ds st).2 !! i = Some f ->
               collection st !! i = Some f \/ exists d, d ∈ ds /\ f = fields d).
Proof.
  revert st. induction ds as [|d ds IH]; intros st; [cbn; auto|].
  rewrite mapM_cons.
  destruct (insertOne_in_state d st) as [Hs|(E & Hn & _)].
  - destruct (insertOne_in schema d st) as [[[]|e] st1]; cbn in Hs; subst st1.
    + destruct (IH st) as [Hmono Hprov].
      destruct (mapM (insertOne_in schema) ds st) as [[us|e] st2];
        cbn in Hmono, Hprov |- *.
      all: split; [done|]; intros i f Hi;
        destruct (Hprov i f Hi) as [?|(d' & ? & ?)];
        [by left | right; exists d'; split; [by right | done]].
    + cbn. auto.
  - rewrite E. set (st1 := mkStore _ _).
    destruct (IH st1) as [Hmono Hprov].
    destruct (mapM (insertOne_in schema) ds st1) as [[us|e] st2];
      cbn in Hmono, Hprov |- *.
    all: split;
      [ intros i f Hi; apply Hmono;
        rewrite lookup_insert_ne; [done | congruence]
      | intros i f Hi; destruct (Hprov i f Hi) as [Hold|(d' & Hd' & ->)];
        [ apply lookup_insert_Some in Hold as [[_ <-]|[_ Hold]];
          [right; exists d; split; [left | done] | by left]
        | right; exists d'; split; [by right | done] ] ].
Qed.

(** Single create on an object body: nothing stored, or the stamped
    instance stored under a key the store did not hold. *)
Lemma post_worker_in_cases o st :
  let w := stamp_in versionKey
             (build_in schema versionKey (fresh (dom (collection st) ∪ issued st)) (picked o)) in
  collection (@post_worker Store (model_with schema versionKey) (JObj o) st).2
  = collection st
  \/ (collection st !! _id (doc w) = None
      /\ @post_worker Store (model_with schema versionKey) (JObj o) st
         = (Ok (mkResponse 201 (Document (doc w))),
            mkStore (<[_id (doc w) := fields (doc w)]> (collection st))
                    ({[ fresh (dom (collection st) ∪ issued st) ]} ∪ issued st))).
Proof.
  intros w. rewrite post_worker_object. unfold try_catch, bind.
  cbn [Worker save model_with]. rewrite construct_in_object.
  set (st1 := mkStore _ _). unfold save_in, bind.
  pose proof (validate_in_state (build_in schema versionKey
                (fresh (dom (collection st) ∪ issued st)) (picked o)) st1) as Hv.
  destruct (validate_in schema _ st1) as [[[]|e] st2]; cbn in Hv; subst st2;
    [|by left].
  fold w.
  destruct (insertOne_in_state (doc w) st1) as [Hs|(E & Hn & _)].
  - destruct (insertOne_in schema (doc w) st1) as [[[]|e] st2]; cbn in Hs; subst st2;
      by left.
  - rewrite E. by right.
Qed.

(** Single create: what was stored stays, and a new document has
    fields on the schema's paths only. *)
Lemma post_worker_in_state b st :
  (forall i f, collection st !! i = Some f ->
     collection (@post_worker Store (model_with schema versionKey) b st).2 !! i = Some f)
  /\ (forall i f,
     collection (@post_worker Store (model_with schema versionKey) b st).2 !! i = Some f ->
     collection st !! i = Some f
     \/ forall k, is_Some (f !! k) -> k ∈ map path (paths_of schema versionKey)).
Proof.
  assert (Hobj : forall o,
    (forall i f, collection st !! i = Some f ->
       collection (@post_worker Store (model_with schema versionKey) (JObj o) st).2 !! i
       = Some f)
    /\ (forall i f,
       collection (@post_worker Store (model_with schema versionKey) (JObj o) st).2 !! i
       = Some f ->
       collection st !! i = Some f
       \/ forall k, is_Some (f !! k) -> k ∈ map path (paths_of schema versionKey))).
  { intros o. destruct (post_worker_in_cases o st) as [-> | [Hn ->]]; [auto|].
    cbn [snd collection]. split.
    - intros i f Hi. rewrite lookup_insert_ne; [done | congruence].
    - intros i f Hi. apply lookup_insert_Some in Hi as [[_ <-]|[_ Hi]]; [|by left].
      right. intros k Hk. apply stamp_in_schema in Hk as [Hk|Hk]; [|done].
      by apply build_in_schema in Hk. }
  destruct b as [| |b|n|s|l|o].
  - unfold post_worker, bind, prop, throw. cbn [snd]. auto.
  - unfold post_worker, bind, prop, throw. cbn [snd]. auto.
  - rewrite (post_worker_no_own_fields (JBool b)) by done. apply Hobj.
  - rewrite (post_worker_no_own_fields (JNum n)) by done. apply Hobj.
  - rewrite (post_worker_no_own_fields (JStr s)) by done. apply Hobj.
  - rewrite (post_worker_no_own_fields (JArr l)) by done. apply Hobj.
  - apply Hobj.
Qed.

(** Bulk create: the same, whatever the body and however far the insert
    gets. *)
Lemma post_workers_in_state b st :
  (forall i f, collection st !! i = Some f ->
     collection (@post_workers Store (model_with schema versionKey) b st).2 !! i = Some f)
  /\ (forall i f,
     collection (@post_workers Store (model_with schema versionKey) b st).2 !! i = Some f ->
     collection st !! i = Some f
     \/ forall k, is_Some (f !! k) -> k ∈ map path (paths_of schema versionKey)).
Proof.
  destruct b as [| | | | |items|]; try (cbn; by auto).
  unfold post_workers, js_map, try_catch, bind. cbn [Worker insertMany model_with].
  destruct (mapM_construct_in_state items st) as [Hc Hws].
  destruct (mapM (construct_in schema versionKey) items st) as [[ws|e] st1];
    cbn in Hc, Hws; [|cbn; rewrite Hc; auto].
  specialize (Hws ws eq_refl).
  unfold insertMany_in, bind.
  pose proof (mapM_validate_in_state ws st1) as Hv.
  destruct (mapM (validate_in schema) ws st1) as [[us|e] st2]; cbn in Hv; subst st2;
    [|cbn; rewrite Hc; auto].
  destruct (mapM_insertOne_in_state (map doc (map (stamp_in versionKey) ws)) st1)
    as [Hmono Hprov].
  assert (Hfinal : forall i f,
    collection (mapM (insertOne_in schema) (map doc (map (stamp_in versionKey) ws)) st1).2
      !! i = Some f ->
    collection st !! i = Some f
    \/ forall k, is_Some (f !! k) -> k ∈ map path (paths_of schema versionKey)).
  { intros i f Hi. destruct (Hprov i f Hi) as [Hold|(d & Hd & ->)];
      [left; by rewrite <- Hc|right].
    apply list_elem_of_fmap in Hd as (w' & -> & Hw').
    apply list_elem_of_fmap in Hw' as (w & -> & Hw).
    rewrite Forall_forall in Hws. destruct (Hws w Hw) as (a & o & ->).
    intros k Hk. apply stamp_in_schema in Hk as [Hk|Hk]; [|done].
    by apply build_in_schema in Hk. }
  rewrite <- Hc in *.
  destruct (mapM (insertOne_in schema) (map doc (map (stamp_in versionKey) ws)) st1)
    as [[us'|e] st2]; cbn in Hmono, Hfinal |- *; auto.
Qed.


(** *** Updates *)

Lemma castUpdate_in_result upd st :
  (castUpdate_in schema versionKey upd st).2 = st
  /\ forall u, (castUpdate_in schema versionKey upd st).1 = Ok u ->
       match u with
       | Unchanged => upd = JUndefined \/ upd = JNull
       | Sets key sets =>
           exists o, upd = JObj o /\ has_operator o = false
                     /\ castPaths (paths_of schema versionKey) o = (sets, [])
       | Delegated upd' => upd' = upd /\ plain_update upd = false
       end.
Proof.
  destruct upd as [| | | | | |o];
    try (cbn; split; [done|]; intros u [= <-]; by auto).
  unfold castUpdate_in. destruct (has_operator o) eqn:Hop.
  - split; [done|]. intros u [= <-]. unfold plain_update. by rewrite Hop.
  - destruct (castPaths (paths_of schema versionKey) o) as [sets [|[p m] errs]] eqn:Ec;
      [|cbn; split; [done|]; by intros u [=]].
    destruct (defined o "_id") as [v|]; [destruct (castObjectId v)|];
      cbn; (split; [done|]); intros u Hu; simplify_eq; by exists o.
Qed.

Lemma castUpdate_in_plain o st :
  has_operator o = false ->
  forallb (castable o) (paths_of schema versionKey) = true ->
  defined o "_id" = None ->
  castUpdate_in schema versionKey (JObj o) st
  = (Ok (Sets None (castPaths (paths_of schema versionKey) o).1), st).
Proof.
  intros Hop Hvalid Hkey. unfold castUpdate_in. rewrite Hop.
  apply castPaths_errors_nil in Hvalid.
  destruct (castPaths (paths_of schema versionKey) o) as [sets errs]. cbn [snd fst] in *.
  subst errs. by rewrite Hkey.
Qed.

Lemma findByIdAndUpdate_in_run id i upd u old updated new st :
  castObjectId (JStr id) = Cast i ->
  castUpdate_in schema versionKey upd st = (Ok u, st) ->
  collection st !! i = Some old ->
  updated_in u i old = Ok updated ->
  conflict schema (collection st) i (Some old) updated = None ->
  findByIdAndUpdate_in schema versionKey id upd new st
  = (Ok (Some (mkDoc i (if new then updated else old))),
     mkStore (<[i := updated]> (collection st)) (issued st)).
Proof.
  intros Ei Eu Eold Hup Hc. unfold findByIdAndUpdate_in, bind.
  by rewrite (castId_ok _ _ _ Ei), Eu, Eold, Hup, Hc.
Qed.

Lemma findByIdAndUpdate_in_refused id i upd e new st :
  castObjectId (JStr id) = Cast i ->
  castUpdate_in schema versionKey upd st = (Throw e, st) ->
  findByIdAndUpdate_in schema versionKey id upd new st = (Throw e, st).
Proof.
  intros Ei Eu. unfold findByIdAndUpdate_in, bind.
  by rewrite (castId_ok _ _ _ Ei), Eu.
Qed.

(** An update on a stored record: when it fulfils, it gives the record
    as it is stored afterwards; when it rejects, the store is as it
    was.  Every other record is as it was either way. *)
Lemma findByIdAndUpdate_in_stored id i upd old st :
  castObjectId (JStr id) = Cast i ->
  collection st !! i = Some old ->
  (exists new,
      findByIdAndUpdate_in schema versionKey id upd true st
      = (Ok (Some (mkDoc i new)), mkStore (<[i := new]> (collection st)) (issued st)))
  \/ (exists e, findByIdAndUpdate_in schema versionKey id upd true st = (Throw e, st)).
Proof.
  intros Ei Eold. unfold findByIdAndUpdate_in, bind.
  rewrite (castId_ok _ _ _ Ei).
  destruct (castUpdate_in_result upd st) as [Hs _].
  destruct (castUpdate_in schema versionKey upd st) as [[u|e] st1]; cbn in Hs; subst st1;
    [|right; by exists e].
  rewrite Eold. destruct (updated_in u i old) as [updated|e]; [|right; by exists e].
  destruct (conflict schema (collection st) i (Some old) updated) as [p|];
    [right; by eexists | left; by exists updated].
Qed.

Lemma findByIdAndUpdate_in_unknown id i upd new st :
  castObjectId (JStr id) = Cast i -> collection st !! i = None ->
  (findByIdAndUpdate_in schema versionKey id upd new st).2 = st
  /\ forall r, (findByIdAndUpdate_in schema versionKey id upd new st).1 = Ok r -> r = None.
Proof.
  intros Ei En. unfold findByIdAndUpdate_in, bind. rewrite (castId_ok _ _ _ Ei).
  destruct (castUpdate_in_result upd st) as [Hs _].
  destruct (castUpdate_in schema versionKey upd st) as [[u|e] st1]; cbn in Hs; subst st1;
    [|by split].
  rewrite En. split; [done|]. by intros r [= <-].
Qed.


End Stores.

(** *** The model of [models/Worker.js] *)

Lemma findByIdAndDelete_found id i f st :
  castObjectId (JStr id) = Cast i -> collection st !! i = Some f ->
  findByIdAndDelete id st
  = (Ok (Some (mkDoc i f)), mkStore (delete i (collection st)) (issued st)).
Proof.
  intros Ei Ef. cbn [findByIdAndDelete model model_with].
  unfold mongo_findByIdAndDelete, bind.
  by rewrite (castId_ok _ _ _ Ei), Ef.
Qed.

Lemma findByIdAndDelete_missing id i st :
  castObjectId (JStr id) = Cast i -> collection st !! i = None ->
  findByIdAndDelete id st = (Ok None, st).
Proof.
  intros Ei Ef. cbn [findByIdAndDelete model model_with].
  unfold mongo_findByIdAndDelete, bind.
  by rewrite (castId_ok _ _ _ Ei), Ef.
Qed.

Lemma findById_lookup id i st :
  castObjectId (JStr id) = Cast i ->
  findById id st = (Ok (mkDoc i <$> collection st !! i), st).
Proof.
  intros Ei. cbn [findById model model_with]. unfold mongo_findById, bind.
  by rewrite (castId_ok _ _ _ Ei).
Qed.

Lemma workerPaths_NoDup : NoDup (map path workerPaths).
Proof. apply (bool_decide_unpack _). vm_compute. exact I. Qed.

Lemma workerSchema_workerPaths p : p ∈ workerSchema -> p ∈ workerPaths.
Proof. intros Hp. unfold workerPaths, paths_of. apply elem_of_app. by left. Qed.

Lemma workerSchema_optional fs : requiredErrors_in workerSchema fs = [].
Proof. reflexivity. Qed.

Lemma describe_nonempty errs : errs <> [] -> describe errs <> EmptyString.
Proof.
  destruct errs as [|[p m] [|e rest]]; [done| |]; intros _; cbn.
  - destruct p; discriminate.
  - destruct p; discriminate.
Qed.

(** *** The object literal of the create handler *)

Lemma defined_picked o k :
  defined (picked o) k = if bool_decide (k ∈ copied) then defined o k else None.
Proof.
  unfold defined, picked.
  destruct (decide (k ∈ copied)) as [Hin|Hout].
  - rewrite bool_decide_eq_true_2 by done.
    unfold copied in Hin. rewrite !elem_of_cons, elem_of_nil in Hin.
    destruct Hin as [->|[->|[->|[->|[->|[->|[]]]]]]];
      repeat (rewrite lookup_insert_ne by done);
      rewrite lookup_insert_eq; by destruct (o !! _) as [[]|].
  - rewrite bool_decide_eq_false_2 by done.
    repeat (rewrite lookup_insert_ne
              by (intros <-; apply Hout; unfold copied; set_solver)).
    by rewrite lookup_empty.
Qed.

Lemma picked_agree o1 o2 :
  (forall k, k ∈ copied -> o1 !! k = o2 !! k) -> picked o1 = picked o2.
Proof.
  intros Hagree. unfold picked.
  by rewrite !Hagree by (unfold copied; set_solver).
Qed.

Lemma picked_keyless o : defined (picked o) "_id" = None.
Proof. by rewrite defined_picked. Qed.

Lemma picked_no_id o : defined (picked o) "id" = None.
Proof. by rewrite defined_picked. Qed.

Lemma picked_defined o k :
  k ∈ copied -> defined (picked o) k = defined o k.
Proof. intros Hk. by rewrite defined_picked, bool_decide_eq_true_2. Qed.

Lemma picked_outside o k : k ∉ copied -> defined (picked o) k = None.
Proof. intros Hk. by rewrite defined_picked, bool_decide_eq_false_2. Qed.

(** *** Creating one worker *)

Lemma newObjectId_fresh st :
  collection st !! fresh (dom (collection st) ∪ issued st) = None.
Proof.
  apply not_elem_of_dom. intros Hin.
  apply (is_fresh (dom (collection st) ∪ issued st)). set_solver.
Qed.

(** The index on [id] reads [null] for a record without the field. *)
Lemma unnumbered_insert c a fs :
  c !! a = None -> fs !! "id" = None -> unnumbered (<[a := fs]> c) = true.
Proof.
  intros Ha Hid. unfold unnumbered. apply held_insert; [done|].
  left. unfold indexed. by rewrite Hid.
Qed.

Lemma stamped_picked_no_id a o :
  fields (doc (stamp_in true (build_in workerSchema true a (picked o)))) !! "id" = None.
Proof.
  cbn [stamp_in doc fields]. rewrite lookup_insert_ne by done.
  rewrite build_in_fields. apply castPaths_undefined, picked_no_id.
Qed.

(** Every create request with an object body is answered: 400 with the
    validation error's message when one of the six copied properties
    cannot be cast; otherwise 400 with the duplicate key error of the
    index on [id] when a stored record has no [id], and 201 with the
    record as inserted when none has. *)
Lemma post_worker_run o st :
  let auto_id := fresh (dom (collection st) ∪ issued st) in
  let w := build_in workerSchema true auto_id (picked o) in
  post_worker (JObj o) st =
    match castErrors w with
    | [] =>
        if unnumbered (collection st)
        then (Ok (mkResponse 400 (Message (message (DuplicateKey "id_1")))),
              mkStore (collection st) ({[ auto_id ]} ∪ issued st))
        else (Ok (mkResponse 201 (Document (doc (stamp_in true w)))),
              mkStore (<[auto_id := fields (doc (stamp_in true w))]> (collection st))
                      ({[ auto_id ]} ∪ issued st))
    | errs =>
        (Ok (mkResponse 400 (Message (message (ValidationError errs)))),
         mkStore (collection st) ({[ auto_id ]} ∪ issued st))
    end.
Proof.
  intros auto_id w. rewrite post_worker_object. unfold try_catch, bind.
  cbn [Worker save model model_with]. rewrite construct_in_object.
  fold auto_id. fold w. set (st1 := mkStore _ _). unfold save_in, bind.
  destruct (castErrors w) as [|e errs] eqn:Ew.
  - rewrite validate_in_ok by (done || apply workerSchema_optional).
    assert (Hid : _id (doc (stamp_in true w)) = auto_id).
    { rewrite stamp_in_id. apply build_in_keyless, picked_keyless. }
    pose proof (newObjectId_fresh st) as Hfresh. fold auto_id in Hfresh.
    unfold insertOne_in. rewrite Hid. cbn [collection issued st1].
    rewrite Hfresh, conflict_workerSchema. cbn [andb].
    rewrite in_use_new by done.
    assert (Hnull : indexed (fields (doc (stamp_in true w))) "id" = VNull).
    { unfold indexed, w. by rewrite stamped_picked_no_id. }
    rewrite Hnull. fold (unnumbered (collection st)).
    by destruct (unnumbered (collection st)).
  - unfold validate_in. rewrite workerSchema_optional, app_nil_r, Ew. done.
Qed.

Lemma post_worker_created o st d st1 :
  post_worker (JObj o) st = (Ok (mkResponse 201 (Document d)), st1) ->
  collection st !! _id d = None
  /\ collection st1 = <[_id d := fields d]> (collection st).
Proof.
  rewrite post_worker_run.
  set (auto_id := fresh _). set (w := build_in workerSchema true auto_id (picked o)).
  assert (Hid : _id (doc w) = auto_id) by apply build_in_keyless, picked_keyless.
  destruct (castErrors w) as [|e errs]; [|discriminate].
  destruct (unnumbered (collection st)); [discriminate|].
  intros [= <- <-]. cbn [_id fields collection]. rewrite Hid.
  split; [apply newObjectId_fresh | done].
Qed.

Lemma post_worker_rejects o st p v m :
  p ∈ workerSchema -> path p ∈ copied ->
  defined o (path p) = Some v -> castField (type p) v = CastFail m ->
  exists errs,
    (path p, m) ∈ errs
    /\ post_worker (JObj o) st
       = (Ok (mkResponse 400 (Message ("Worker validation failed: " ++ describe errs))),
          mkStore (collection st)
                  ({[ fresh (dom (collection st) ∪ issued st) ]} ∪ issued st)).
Proof.
  intros Hp Hc Hv Hm. rewrite post_worker_run.
  set (w := build_in workerSchema true _ (picked o)).
  assert (Hin : (path p, m) ∈ castErrors w).
  { unfold w. rewrite (proj2 (build_in_keyless _ _ _ _ (picked_keyless o))).
    apply (castPaths_error_at _ _ p v); [by apply workerSchema_workerPaths | | done].
    by rewrite picked_defined. }
  destruct (castErrors w) as [|e errs]; [by apply not_elem_of_nil in Hin|].
  by exists (e :: errs).
Qed.

Lemma post_worker_valid o st :
  valid_fields (JObj (picked o)) = true ->
  castErrors (build_in workerSchema true (fresh (dom (collection st) ∪ issued st)) (picked o))
  = [].
Proof. intros Hvalid. by apply build_in_errors_nil. Qed.

(** *** Updating one worker *)

Lemma defined_singleton k0 v k :
  defined ({[ k0 := v ]} : gmap string jsval) k
  = if decide (k0 = k) then match v with JUndefined => None | _ => Some v end
    else None.
Proof.
  unfold defined. rewrite lookup_singleton. case_decide; [|done].
  by destruct v.
Qed.

Lemma castUpdate_RMPaid v st :
  castUpdate_in workerSchema true (JObj {[ "RMPaid" := v ]}) st
  = (match RMPaid_sets v with
     | Ok sets => Ok (Sets None sets)
     | Throw e => Throw e
     end, st).
Proof.
  unfold castUpdate_in, has_operator. rewrite map_to_list_singleton.
  cbn [map fst existsb is_operator orb].
  cbn [castPaths paths_of workerSchema versionPath app path type].
  rewrite !defined_singleton.
  repeat (rewrite decide_False by discriminate).
  rewrite decide_True by done.
  unfold RMPaid_sets.
  destruct v; try done; destruct (castField TNumber _); done.
Qed.

Lemma RMPaid_sets_frame v sets :
  RMPaid_sets v = Ok sets -> forall k, k <> "RMPaid" -> sets !! k = None.
Proof.
  unfold RMPaid_sets. intros E.
  destruct v; try destruct (castField TNumber _); simplify_eq;
    intros k Hk; by rewrite ?lookup_empty, ?lookup_singleton_ne.
Qed.

(** Fields laid over a record without touching [id] meet no index. *)
Lemma conflict_frame c i old (sets : gmap string value) :
  sets !! "id" = None ->
  conflict workerSchema c i (Some old) (sets ∪ old) = None.
Proof.
  intros Hid. rewrite conflict_workerSchema.
  assert (Hsame : indexed (sets ∪ old) "id" = indexed old "id")
    by (unfold indexed; by rewrite lookup_union_r).
  by rewrite bool_decide_eq_true_2.
Qed.

Lemma union_twice (m n : gmap string value) : m ∪ (m ∪ n) = m ∪ n.
Proof. by rewrite (assoc_L (∪)), (idemp_L (∪)). Qed.

Lemma put_worker_updateRMPaid_run id i old body st :
  castObjectId (JStr id) = Cast i ->
  collection st !! i = Some old ->
  put_worker_updateRMPaid id body st =
    match body with
    | JUndefined | JNull =>
        (Throw (TypeError "Cannot read properties of null or undefined (reading 'RMPaid')"), st)
    | _ =>
        match RMPaid_sets (read_RMPaid body) with
        | Ok sets =>
            (Ok (mkResponse 200 (Document (mkDoc i (sets ∪ old)))),
             mkStore (<[i := sets ∪ old]> (collection st)) (issued st))
        | Throw e => (Throw e, st)
        end
    end.
Proof.
  intros Ei Eold.
  assert (Hrun : forall v,
    (worker <- findByIdAndUpdate id (JObj {[ "RMPaid" := v ]}) true ;;
     ret (mkResponse 200 (json_of worker))) st
    = match RMPaid_sets v with
      | Ok sets =>
          (Ok (mkResponse 200 (Document (mkDoc i (sets ∪ old)))),
           mkStore (<[i := sets ∪ old]> (collection st)) (issued st))
      | Throw e => (Throw e, st)
      end).
  { intros v. unfold bind at 1. cbn [findByIdAndUpdate model model_with].
    destruct (RMPaid_sets v) as [sets|e] eqn:Eu.
    - rewrite (findByIdAndUpdate_in_run workerSchema true id i _
                 (Sets None sets) old (sets ∪ old) true st); try done.
      + by rewrite castUpdate_RMPaid, Eu.
      + apply conflict_frame. by apply (RMPaid_sets_frame v).
    - rewrite (findByIdAndUpdate_in_refused workerSchema true id i _ e true st); try done.
      by rewrite castUpdate_RMPaid, Eu. }
  destruct body; try done; apply Hrun.
Qed.

Lemma put_worker_updateRMPaid_set id i old o v x st :
  castObjectId (JStr id) = Cast i ->
  collection st !! i = Some old ->
  defined o "RMPaid" = Some v -> castField TNumber v = Cast x ->
  put_worker_updateRMPaid id (JObj o) st
  = (Ok (mkResponse 200 (Document (mkDoc i (<["RMPaid" := x]> old)))),
     mkStore (<[i := <["RMPaid" := x]> old]> (collection st)) (issued st)).
Proof.
  intros Ei Eold Hv Hx.
  rewrite (put_worker_updateRMPaid_run id i old (JObj o) st Ei Eold).
  unfold read_RMPaid, defined in *.
  destruct (o !! "RMPaid") as [w|]; [|done]. cbn.
  assert (w = v) as -> by (by destruct w; simplify_eq).
  unfold RMPaid_sets. rewrite Hx.
  destruct v; try done; cbn; by rewrite <- insert_union_singleton_l.
Qed.

(** C1.  Delete by id answers 200 with the record it removed when the
    key names a stored record, 404 with the message "Worker not found"
    when it names none, and 400 with the error's message when the store
    call fails, whichever implementation of the model API fails. *)
Theorem delete_worker_responses (id : string) (st : Store) :
  (forall i f,
      castObjectId (JStr id) = Cast i -> collection st !! i = Some f ->
      delete_worker id st
      = (Ok (mkResponse 200 (Document (mkDoc i f))),
         mkStore (delete i (collection st)) (issued st)))
  /\ (forall i,
      castObjectId (JStr id) = Cast i -> collection st !! i = None ->
      delete_worker id st
      = (Ok (mkResponse 404 (Message "Worker not found")), st))
  /\ (forall (St' : Type) (W : WorkerModel St') (e : Error) (s s' : St'),
      findByIdAndDelete id s = (Throw e, s') ->
      delete_worker id s = (Ok (mkResponse 400 (Message (message e))), s')).
Proof.
  split; [|split].
  - intros i f Ei Ef. apply delete_worker_found.
    by apply findByIdAndDelete_found.
  - intros i Ei Ef. apply delete_worker_missing.
    by apply (findByIdAndDelete_missing id i).
  - intros St' W e s s' E. by apply delete_worker_caught.
Qed.

(** C2.  Get by id on a key that names no record answers 200 with a
    null body: the handler sends whatever the query returned. *)
Theorem get_worker_unknown_key (id : string) (i : N) (st : Store) :
  castObjectId (JStr id) = Cast i -> collection st !! i = None ->
  get_worker id st = (Ok (mkResponse 200 Null), st).
Proof.
  intros Ei Ef. apply get_worker_null.
  rewrite (findById_lookup id i st Ei). by rewrite Ef.
Qed.

(** After a delete by id, get by id on the same key answers 200 with a
    null body as well. *)
Lemma get_worker_after_delete (id : string) (i : N) f (st : Store) :
  castObjectId (JStr id) = Cast i -> collection st !! i = Some f ->
  (delete_worker id ;;; get_worker id) st
  = (Ok (mkResponse 200 Null), mkStore (delete i (collection st)) (issued st)).
Proof.
  intros Ei Ef. unfold bind at 1.
  rewrite (delete_worker_found id (mkDoc i f) st _ (findByIdAndDelete_found id i f st Ei Ef)).
  apply get_worker_null.
  rewrite (findById_lookup id i _ Ei). cbn. by rewrite lookup_delete_eq.
Qed.

(** C9.  Delete all answers 200 with the message "All workers deleted"
    whatever the store holds, and list all then answers an empty
    collection. *)
Theorem delete_workers_then_list (st : Store) :
  delete_workers st
  = (Ok (mkResponse 200 (Message "All workers deleted")), mkStore ∅ (issued st))
  /\ get_workers (mkStore ∅ (issued st))
     = (Ok (mkResponse 200 (Documents [])), mkStore ∅ (issued st))
  /\ (delete_workers ;;; get_workers) st
     = (Ok (mkResponse 200 (Documents [])), mkStore ∅ (issued st)).
Proof.
  assert (G : get_workers (mkStore ∅ (issued st))
              = (Ok (mkResponse 200 (Documents [])), mkStore ∅ (issued st))).
  { unfold get_workers, bind. cbn. unfold mongo_find. cbn.
    by rewrite map_to_list_empty. }
  split; [reflexivity | split; [exact G |]].
  unfold bind at 1. cbn. exact G.
Qed.

(** C4.  On a stored record the [updateRMPaid] endpoint changes no
    field other than [RMPaid], leaves the record under its key and every
    other record as it was, and sending the same request again gives the
    same answer and the same store.  When the body's [RMPaid] can be
    cast, the record becomes the old one with [RMPaid] set to it. *)
Theorem updateRMPaid_frame
    (id : string) (i : N) (old : gmap string value) (req_body : jsval) (st : Store) :
  castObjectId (JStr id) = Cast i ->
  collection st !! i = Some old ->
  (exists new,
      collection (put_worker_updateRMPaid id req_body st).2 !! i = Some new
      /\ forall k, k <> "RMPaid" -> new !! k = old !! k)
  /\ (forall j, j <> i ->
      collection (put_worker_updateRMPaid id req_body st).2 !! j = collection st !! j)
  /\ put_worker_updateRMPaid id req_body (put_worker_updateRMPaid id req_body st).2
     = put_worker_updateRMPaid id req_body st
  /\ (forall o v x,
      req_body = JObj o -> defined o "RMPaid" = Some v -> castField TNumber v = Cast x ->
      put_worker_updateRMPaid id req_body st
      = (Ok (mkResponse 200 (Document (mkDoc i (<["RMPaid" := x]> old)))),
         mkStore (<[i := <["RMPaid" := x]> old]> (collection st)) (issued st))).
Proof.
  intros Ei Eold.
  pose proof (put_worker_updateRMPaid_run id i old req_body st Ei Eold) as Hrun.
  assert (Hsame : forall r, put_worker_updateRMPaid id req_body st = (r, st) ->
    (exists new, collection (r, st).2 !! i = Some new
                 /\ forall k, k <> "RMPaid" -> new !! k = old !! k)
    /\ (forall j, j <> i -> collection (r, st).2 !! j = collection st !! j)
    /\ put_worker_updateRMPaid id req_body (r, st).2 = (r, st)).
  { intros r E. cbn. split; [by exists old|]. split; [done|exact E]. }
  assert (Hcases :
    (exists r, put_worker_updateRMPaid id req_body st = (r, st))
    \/ (exists u, RMPaid_sets (read_RMPaid req_body) = Ok u
        /\ forall s old', collection s !! i = Some old' ->
           put_worker_updateRMPaid id req_body s
           = (Ok (mkResponse 200 (Document (mkDoc i (u ∪ old')))),
              mkStore (<[i := u ∪ old']> (collection s)) (issued s)))).
  { destruct (RMPaid_sets (read_RMPaid req_body)) as [u|e] eqn:Eu.
    - destruct req_body;
        try (left; eexists; by rewrite Hrun);
        right; exists u; (split; [done|]); intros st0 old' Eold';
        rewrite (put_worker_updateRMPaid_run id i old' _ st0 Ei Eold');
        by rewrite Eu.
    - left. rewrite Hrun. destruct req_body; by eexists. }
  split_and!.
  4: { intros o v x -> Hv Hx. by apply (put_worker_updateRMPaid_set id i old o v x). }
  all: destruct Hcases as [[r Er]|(u & Eu & Hu)];
    [rewrite Er; by apply Hsame|].
  all: pose proof (RMPaid_sets_frame _ _ Eu) as Hu2.
  all: rewrite (Hu st old Eold); cbn [snd collection issued].
  - exists (u ∪ old). split; [by rewrite lookup_insert_eq|].
    intros k Hk. by rewrite lookup_union_r by auto.
  - intros j Hj. by rewrite lookup_insert_ne.
  - rewrite (Hu _ (u ∪ old)) by (cbn; by rewrite lookup_insert_eq).
    cbn [collection issued]. by rewrite union_twice, insert_insert_eq.
Qed.

(** C7.  A create request whose [permitVisaExpiry] or [RMPaid] cannot be
    cast to the path's type is answered 400 with the validation error's
    message, which names the path, and stores nothing.  A create request
    whose copied properties can all be cast is answered 201 with the
    created record, stored under a key the store did not hold, only
    while no stored record lacks an [id]: the handler never gives the
    record an [id], the schema declares a unique index on it, and so
    once one record is stored every further create is answered 400 with
    the duplicate key error of that index, and stores nothing.  Of two
    consecutive creates with castable properties the second is always
    refused. *)
Theorem post_worker_validation (o : gmap string jsval) (st : Store) :
  (forall v m,
      (defined o "permitVisaExpiry" = Some v /\ castField TDate v = CastFail m)
      \/ (defined o "RMPaid" = Some v /\ castField TNumber v = CastFail m) ->
      exists errs st',
        post_worker (JObj o) st
        = (Ok (mkResponse 400 (Message ("Worker validation failed: " ++ describe errs))), st')
        /\ describe errs <> EmptyString
        /\ (("permitVisaExpiry", m) ∈ errs \/ ("RMPaid", m) ∈ errs)
        /\ collection st' = collection st)
  /\ (valid_fields (JObj (picked o)) = true ->
      unnumbered (collection st) = false ->
      exists d st',
        post_worker (JObj o) st = (Ok (mkResponse 201 (Document d)), st')
        /\ _id d = fresh (dom (collection st) ∪ issued st)
        /\ collection st !! _id d = None
        /\ collection st' = <[_id d := fields d]> (collection st))
  /\ (valid_fields (JObj (picked o)) = true ->
      unnumbered (collection st) = true ->
      exists st',
        post_worker (JObj o) st
        = (Ok (mkResponse 400 (Message (message (DuplicateKey "id_1")))), st')
        /\ collection st' = collection st)
  /\ (valid_fields (JObj (picked o)) = true ->
      forall o2,
        valid_fields (JObj (picked o2)) = true ->
        exists r st' st'',
          post_worker (JObj o) st = (Ok r, st')
          /\ post_worker (JObj o2) st'
             = (Ok (mkResponse 400 (Message (message (DuplicateKey "id_1")))), st'')
          /\ collection st'' = collection st').
Proof.
  split_and!.
  - intros v m [[Hv Hm]|[Hv Hm]].
    + destruct (post_worker_rejects o st (mkPath "permitVisaExpiry" TDate false false) v m)
        as (errs & Hin & E); [unfold workerSchema; set_solver | unfold copied; set_solver | done | done |].
      exists errs, (mkStore (collection st) ({[ fresh (dom (collection st) ∪ issued st) ]} ∪ issued st)).
      repeat split; [done | | by left].
      apply describe_nonempty. intros ->. by apply not_elem_of_nil in Hin.
    + destruct (post_worker_rejects o st (mkPath "RMPaid" TNumber false false) v m)
        as (errs & Hin & E); [unfold workerSchema; set_solver | unfold copied; set_solver | done | done |].
      exists errs, (mkStore (collection st) ({[ fresh (dom (collection st) ∪ issued st) ]} ∪ issued st)).
      repeat split; [done | | by right].
      apply describe_nonempty. intros ->. by apply not_elem_of_nil in Hin.
  - intros Hvalid Hfree. rewrite post_worker_run, post_worker_valid, Hfree by done.
    eexists _, _. split; [reflexivity|]. cbn [_id fields doc stamp_in collection].
    rewrite (proj1 (build_in_keyless _ _ _ _ (picked_keyless o))).
    split; [done|]. split; [apply newObjectId_fresh | done].
  - intros Hvalid Hheld. rewrite post_worker_run, post_worker_valid, Hheld by done.
    by eexists.
  - intros Hvalid o2 Hvalid2. rewrite post_worker_run, post_worker_valid by done.
    destruct (unnumbered (collection st)) eqn:Hheld.
    + eexists _, _, _. split; [reflexivity|].
      rewrite post_worker_run, post_worker_valid by done.
      cbn [collection]. rewrite Hheld. done.
    + eexists _, _, _. split; [reflexivity|].
      rewrite post_worker_run, post_worker_valid by done.
      cbn [collection]. rewrite unnumbered_insert;
        [done | apply newObjectId_fresh | apply stamped_picked_no_id].
Qed.

(** C10.  A create request is read through six properties of its body
    only: two bodies that agree on them are answered alike and leave the
    same store.  The request is always answered, with 201 or with 400,
    and a 400 stores nothing.  When the six properties can be cast and
    the index on [id] is free, the answer is 201 with the record that is
    stored: its key is the one the generator drew, which the store did
    not hold; on each of the six paths it has the cast value of the
    body's property, and no field where the body has none; its version
    key is 0; and it has no other field, whatever else the body
    carries. *)
Theorem post_worker_reads_six (o1 o2 : gmap string jsval) (st : Store) :
  (forall k, k ∈ copied -> o1 !! k = o2 !! k) ->
  post_worker (JObj o1) st = post_worker (JObj o2) st
  /\ (exists r st',
        post_worker (JObj o1) st = (Ok r, st')
        /\ (status r = 201 \/ status r = 400 /\ collection st' = collection st))
  /\ (valid_fields (JObj (picked o1)) = true ->
      unnumbered (collection st) = false ->
      exists d st',
        post_worker (JObj o1) st = (Ok (mkResponse 201 (Document d)), st')
        /\ _id d = fresh (dom (collection st) ∪ issued st)
        /\ collection st !! _id d = None
        /\ collection st' = <[_id d := fields d]> (collection st)
        /\ (forall p, p ∈ workerSchema -> path p ∈ copied ->
              fields d !! path p = cast_at o1 p)
        /\ fields d !! "__v" = Some (VNumber 0)
        /\ (forall k, k ∉ copied -> k <> "__v" -> fields d !! k = None)).
Proof.
  intros Hagree. split_and!.
  - rewrite !post_worker_run. by rewrite (picked_agree o1 o2 Hagree).
  - rewrite post_worker_run.
    destruct (castErrors _) as [|e errs]; [destruct (unnumbered _)|];
      eexists _, _; (split; [reflexivity|]); cbn; auto.
  - intros Hvalid Hfree. rewrite post_worker_run, post_worker_valid, Hfree by done.
    eexists _, _. split; [reflexivity|]. cbn [_id fields doc stamp_in collection].
    rewrite (proj1 (build_in_keyless _ _ _ _ (picked_keyless o1))), build_in_fields.
    fold workerPaths.
    split_and!; [done | apply newObjectId_fresh | done | | | ].
    + intros p Hp Hc.
      assert (Hv : path p <> "__v").
      { intros Heq. rewrite Heq in Hc. unfold copied in Hc. set_solver. }
      rewrite lookup_insert_ne by done.
      rewrite (castPaths_lookup workerPaths (picked o1) p workerPaths_NoDup
                 (workerSchema_workerPaths p Hp)).
      unfold cast_at. by rewrite picked_defined.
    + by rewrite lookup_insert_eq.
    + intros k Hk Hv. rewrite lookup_insert_ne by done.
      by apply castPaths_undefined, picked_outside.
Qed.

(** *** Creating many workers *)

Lemma mapM_construct_objects items st :
  existsb is_primitive items = false ->
  exists ws st1,
    mapM (construct_in workerSchema true) items st = (Ok ws, st1)
    /\ collection st1 = collection st
    /\ Forall2 (fun v w => forall o, v = JObj o ->
                  exists a, w = build_in workerSchema true a o) items ws.
Proof.
  revert st. induction items as [|v items IH]; intros st Hobj.
  - by exists [], st.
  - cbn [existsb] in Hobj. apply orb_false_iff in Hobj as [Hv Hobj].
    rewrite mapM_cons.
    assert (Hc : exists a o', construct_in workerSchema true v st
                   = (Ok (build_in workerSchema true a o'),
                      mkStore (collection st) ({[ a ]} ∪ issued st))
                 /\ forall o, v = JObj o -> o' = o).
    { destruct v; try discriminate; eexists _, _;
        (split; [reflexivity|]); intros o' [=]; done. }
    destruct Hc as (a & o' & -> & Ho).
    destruct (IH (mkStore (collection st) ({[ a ]} ∪ issued st)) Hobj)
      as (ws & st1 & -> & Hc & Hall).
    eexists _, st1. split; [reflexivity|]. split; [done|].
    constructor; [|done]. intros o Hvo. exists a. by rewrite (Ho o Hvo).
Qed.





(** C6.  Take a bulk create of which at least one element is a field set
    that fails validation.  When no element is a boolean, a number or a
    string, it is answered with one 400 whose message is that of the
    validation error, and nothing of the batch is stored.  When some
    element is one, it is not answered at all: [new Worker] throws for
    the first of them inside [map], before the [try] block is entered,
    so the error leaves the handler; nothing is stored either. *)
Theorem post_workers_one_invalid (items : list jsval) (st : Store) :
  existsb (fun v => is_object v && negb (valid_fields v)) items = true ->
  (existsb is_primitive items = false ->
   exists errs st',
     post_workers (JArr items) st
     = (Ok (mkResponse 400 (Message ("Worker validation failed: " ++ describe errs))), st')
     /\ describe errs <> EmptyString
     /\ collection st' = collection st)
  /\ (forall v, List.find is_primitive items = Some v ->
      exists st',
        post_workers (JArr items) st = (Throw (refusal v), st')
        /\ collection st' = collection st).
Proof.
  intros Hbad. split.
  - intros Hobj.
    destruct (mapM_construct_objects items st Hobj) as (ws & st1 & E & Hc & Hrel).
    assert (Hex : Exists (fun w => castErrors w <> []) ws).
    { apply existsb_exists in Hbad as (v & Hv & Hinv).
      apply andb_true_iff in Hinv as [Hisobj Hinv].
      destruct v as [| | | | | |o]; try discriminate.
      apply list_elem_of_In, list_elem_of_lookup in Hv as [n Hn].
      destruct (Forall2_lookup_l _ _ _ _ _ Hrel Hn) as (w & Hw & Hbuild).
      destruct (Hbuild o eq_refl) as (a & ->).
      apply Exists_exists. exists (build_in workerSchema true a o).
      split; [by eapply list_elem_of_lookup_2|].
      intros Hnil. apply build_in_errors_nil in Hnil.
      apply negb_true_iff in Hinv. unfold valid_fields, workerPaths in Hinv.
      congruence. }
    destruct (mapM_validate_in_fail workerSchema ws st1 Hex) as (errs & Ev & Hne).
    exists errs, st1. split_and!; [|by apply describe_nonempty|done].
    unfold post_workers, js_map, try_catch, bind. cbn [Worker insertMany model model_with].
    rewrite E. unfold insertMany_in, bind. by rewrite Ev.
  - intros v Hv.
    destruct (mapM_construct_primitive workerSchema true items v st Hv) as (st' & E & Hc).
    exists st'. split; [|done].
    unfold post_workers, js_map, bind. cbn [Worker model model_with]. by rewrite E.
Qed.

(** *** What a mutation answers with *)

Lemma put_worker_stored id i old b st :
  castObjectId (JStr id) = Cast i ->
  collection st !! i = Some old ->
  (exists new,
      put_worker id b st
      = (Ok (mkResponse 200 (Document (mkDoc i new))),
         mkStore (<[i := new]> (collection st)) (issued st)))
  \/ (exists e, put_worker id b st = (Throw e, st)).
Proof.
  intros Ei Eold. unfold put_worker, bind. cbn [findByIdAndUpdate model model_with].
  destruct (findByIdAndUpdate_in_stored workerSchema true id i b old st Ei Eold)
    as [[new ->]|[e ->]]; [left; by exists new | right; by exists e].
Qed.

Lemma put_worker_plain id i old o st :
  castObjectId (JStr id) = Cast i ->
  collection st !! i = Some old ->
  has_operator o = false -> valid_fields (JObj o) = true -> keyless (JObj o) = true ->
  conflict workerSchema (collection st) i (Some old) ((castPaths workerPaths o).1 ∪ old)
  = None ->
  put_worker id (JObj o) st
  = (Ok (mkResponse 200 (Document (mkDoc i ((castPaths workerPaths o).1 ∪ old)))),
     mkStore (<[i := (castPaths workerPaths o).1 ∪ old]> (collection st)) (issued st)).
Proof.
  intros Ei Eold Hop Hvalid Hkey Hfree. unfold put_worker, bind.
  cbn [findByIdAndUpdate model model_with].
  apply andb_true_iff in Hvalid as [Hvalid _].
  assert (Hk : defined o "_id" = None)
    by (cbn in Hkey; by destruct (defined o "_id")).
  by rewrite (findByIdAndUpdate_in_run workerSchema true id i (JObj o) _ old _ true st Ei
                (castUpdate_in_plain workerSchema true o st Hop Hvalid Hk) Eold
                (eq_refl : updated_in (Sets None _) i old = Ok _) Hfree).
Qed.

Lemma conflict_free c i old fs :
  in_use c i "id" (indexed fs "id") = false ->
  conflict workerSchema c i (Some old) fs = None.
Proof. intros Hfree. rewrite conflict_workerSchema, Hfree. by rewrite andb_false_r. Qed.

(** C8, as the service has it.  On a stored record, an update of fields
    and an update of [RMPaid] that are answered, whatever the body, are
    answered 200 with the record as it is in the store once the update
    is applied.  For a body of castable schema fields that is the old
    record overridden by the cast fields of the body, provided its [id]
    is not the one of another record; for the [RMPaid] endpoint, the old
    record with [RMPaid] set.  Delete by id answers 200 with the record
    as it was in the store before the call, and the store holds no
    record under that key afterwards. *)
Theorem mutation_answers
    (id : string) (i : N) (old : gmap string value) (st : Store) :
  castObjectId (JStr id) = Cast i ->
  collection st !! i = Some old ->
  (forall b r st',
      put_worker id b st = (Ok r, st') ->
      exists new, r = mkResponse 200 (Document (mkDoc i new))
                  /\ collection st' !! i = Some new)
  /\ (forall b r st',
      put_worker_updateRMPaid id b st = (Ok r, st') ->
      exists new, r = mkResponse 200 (Document (mkDoc i new))
                  /\ collection st' !! i = Some new)
  /\ (forall o,
      has_operator o = false -> valid_fields (JObj o) = true -> keyless (JObj o) = true ->
      in_use (collection st) i "id" (indexed ((castPaths workerPaths o).1 ∪ old) "id")
      = false ->
      exists st',
        put_worker id (JObj o) st
        = (Ok (mkResponse 200 (Document (mkDoc i ((castPaths workerPaths o).1 ∪ old)))), st')
        /\ collection st' !! i = Some ((castPaths workerPaths o).1 ∪ old))
  /\ (forall o v x,
      defined o "RMPaid" = Some v -> castField TNumber v = Cast x ->
      exists st',
        put_worker_updateRMPaid id (JObj o) st
        = (Ok (mkResponse 200 (Document (mkDoc i (<["RMPaid" := x]> old)))), st')
        /\ collection st' !! i = Some (<["RMPaid" := x]> old))
  /\ (exists st',
        delete_worker id st = (Ok (mkResponse 200 (Document (mkDoc i old))), st')
        /\ collection st' !! i = None).
Proof.
  intros Ei Eold. split_and!.
  - intros b r st' E.
    destruct (put_worker_stored id i old b st Ei Eold) as [[new E']|[e E']];
      rewrite E' in E; [|discriminate].
    injection E as <- <-. exists new. split; [done|].
    cbn. by rewrite lookup_insert_eq.
  - intros b r st' E.
    rewrite (put_worker_updateRMPaid_run id i old b st Ei Eold) in E.
    destruct b; try discriminate;
      (destruct (RMPaid_sets _) as [sets|e]; [|discriminate];
       injection E as <- <-; exists (sets ∪ old); split; [done|];
       cbn; by rewrite lookup_insert_eq).
  - intros o Hop Hvalid Hkey Hfree. eexists. split.
    + apply (put_worker_plain id i old o st Ei Eold Hop Hvalid Hkey).
      by apply conflict_free.
    + cbn. by rewrite lookup_insert_eq.
  - intros o v x Hv Hx.
    rewrite (put_worker_updateRMPaid_set id i old o v x st Ei Eold Hv Hx).
    eexists. split; [reflexivity|].
    cbn. by rewrite lookup_insert_eq.
  - eexists. split.
    + apply delete_worker_found. by apply findByIdAndDelete_found.
    + cbn. by rewrite lookup_delete_eq.
Qed.

End Service.

(** C3.  A store failure in one of the handlers that has no [try] block
    is not turned into a response: the handler rejects with that same
    error.  This is so for list all, get by id, both updates and delete
    all, for every implementation of the model API. *)
Theorem store_failure_escapes {St : Type} `{WorkerModel St} (e : Error) (st st' : St) :
  (find st = (Throw e, st') -> get_workers st = (Throw e, st'))
  /\ (forall id, findById id st = (Throw e, st') -> get_worker id st = (Throw e, st'))
  /\ (forall id b, findByIdAndUpdate id b true st = (Throw e, st') ->
        put_worker id b st = (Throw e, st'))
  /\ (forall id b, b <> JNull -> b <> JUndefined ->
        findByIdAndUpdate id (JObj {[ "RMPaid" := read_RMPaid b ]}) true st = (Throw e, st') ->
        put_worker_updateRMPaid id b st = (Throw e, st'))
  /\ (deleteMany st = (Throw e, st') -> delete_workers st = (Throw e, st')).
Proof.
  repeat split.
  - apply get_workers_escapes.
  - intros id. apply get_worker_escapes.
  - intros id b. apply put_worker_escapes.
  - intros id b Hnull Hundef E. unfold put_worker_updateRMPaid, bind.
    destruct b; try done; cbn; cbn in E; by rewrite E.
  - apply delete_workers_escapes.
Qed.

(** * Further properties of the service *)

Section Composition.
Context `{Casting} `{UpdateLanguage}.
Import Variant.



(** X3.  Creating never touches what is stored: after a single or a bulk
    create, whatever the body and whether it is answered 201, 400 or not
    at all, every record the store held is still there unchanged. *)
Theorem create_keeps_stored_records
    (b : jsval) (st : Store) (i : N) (f : gmap string value) :
  collection st !! i = Some f ->
  collection (post_worker b st).2 !! i = Some f
  /\ collection (post_workers b st).2 !! i = Some f.
Proof.
  intros Hi. split.
  - by apply (proj1 (post_worker_in_state workerSchema true b st)).
  - by apply (proj1 (post_workers_in_state workerSchema true b st)).
Qed.

(** X4.  List all answers 200 with exactly the stored records, each once:
    the keys in the answer are pairwise distinct, there are as many
    records as the collection holds, a record is in the answer exactly
    when the store holds it, and the store is left as it was. *)
Theorem get_workers_lists_the_store (st : Store) :
  exists ds,
    get_workers st = (Ok (mkResponse 200 (Documents ds)), st)
    /\ NoDup (map _id ds)
    /\ length ds = size (collection st)
    /\ forall d, d ∈ ds <-> collection st !! _id d = Some (fields d).
Proof.
  eexists. split; [reflexivity|]. split_and!.
  - rewrite map_map. cbn. apply NoDup_fst_map_to_list.
  - by rewrite length_map, length_map_to_list.
  - intros [i f]. cbn. rewrite <- elem_of_map_to_list. split.
    + intros Hd. apply list_elem_of_fmap in Hd as ([j g] & [= -> ->] & Hin). done.
    + intros Hin. apply list_elem_of_fmap. by exists (i, f).
Qed.

Lemma get_workers_lists_the_store_aux (st : Store) :
  exists ds,
    get_workers st = (Ok (mkResponse 200 (Documents ds)), st)
    /\ forall d, collection st !! _id d = Some (fields d) -> d ∈ ds.
Proof.
  eexists. split; [reflexivity|]. intros [i f]. cbn. intros Hin.
  apply list_elem_of_fmap. exists (i, f). split; [done|].
  by apply elem_of_map_to_list.
Qed.

(** X5.  A record that single create answered with can be read back: get
    by id on its key answers 200 with that same record, and list all
    includes it. *)
Theorem created_record_is_readable
    (o : gmap string jsval) (st st1 : Store) (d : Doc) (key : string) :
  post_worker (JObj o) st = (Ok (mkResponse 201 (Document d)), st1) ->
  castObjectId (JStr key) = Cast (_id d) ->
  get_worker key st1 = (Ok (mkResponse 200 (Document d)), st1)
  /\ exists ds, get_workers st1 = (Ok (mkResponse 200 (Documents ds)), st1) /\ d ∈ ds.
Proof.
  intros Hpost Hkey. destruct (post_worker_created o st d st1 Hpost) as [Hnew Hc].
  assert (Hd : collection st1 !! _id d = Some (fields d))
    by (by rewrite Hc, lookup_insert_eq).
  split.
  - unfold get_worker, bind. rewrite (findById_lookup key (_id d) st1 Hkey), Hd.
    by destruct d.
  - destruct (get_workers_lists_the_store_aux st1) as (ds & E & Hin).
    exists ds. split; [done|]. by apply Hin.
Qed.

(** X6.  Creating a record and deleting it by its key gives the record
    back and leaves the collection as it was before the create. *)
Theorem create_then_delete_restores
    (o : gmap string jsval) (st st1 : Store) (d : Doc) (key : string) :
  post_worker (JObj o) st = (Ok (mkResponse 201 (Document d)), st1) ->
  castObjectId (JStr key) = Cast (_id d) ->
  exists st2,
    delete_worker key st1 = (Ok (mkResponse 200 (Document d)), st2)
    /\ collection st2 = collection st.
Proof.
  intros Hpost Hkey. destruct (post_worker_created o st d st1 Hpost) as [Hnew Hc].
  assert (Hd : collection st1 !! _id d = Some (fields d))
    by (by rewrite Hc, lookup_insert_eq).
  eexists. split.
  - rewrite (delete_worker_found key (mkDoc (_id d) (fields d)) st1 _
               (findByIdAndDelete_found key (_id d) (fields d) st1 Hkey Hd)).
    by destruct d.
  - cbn. rewrite Hc. by apply delete_insert_id.
Qed.

(** X7.  Delete by id on a stored record removes that record and no
    other: every other record is unchanged, the collection is one record
    smaller, and deleting the same key again answers 404. *)
Theorem delete_worker_removes_one
    (id : string) (i : N) (f : gmap string value) (st : Store) :
  castObjectId (JStr id) = Cast i ->
  collection st !! i = Some f ->
  (forall j, j <> i ->
     collection (delete_worker id st).2 !! j = collection st !! j)
  /\ size (collection st) = S (size (collection (delete_worker id st).2))
  /\ delete_worker id (delete_worker id st).2
     = (Ok (mkResponse 404 (Message "Worker not found")), (delete_worker id st).2).
Proof.
  intros Ei Ef.
  rewrite (delete_worker_found id (mkDoc i f) st _
             (findByIdAndDelete_found id i f st Ei Ef)).
  cbn [snd collection]. split_and!.
  - intros j Hj. by rewrite lookup_delete_ne.
  - rewrite map_size_delete, Ef. cbn.
    assert (size (collection st) <> 0); [|lia].
    intros Hz. apply map_size_empty_inv in Hz. by rewrite Hz, lookup_empty in Ef.
  - apply delete_worker_missing, (findByIdAndDelete_missing id i); [done|].
    cbn. by rewrite lookup_delete_eq.
Qed.

(** X8.  An update of fields on a stored record, with a body of castable
    schema fields whose [id] is not the one of another record, changes
    only what the body defines on a path of the schema: every field the
    body leaves undefined, and every field name that is no path, reads
    as before; every other record is unchanged; and sending the same
    update again gives the same answer and store. *)
Theorem put_worker_frame
    (id : string) (i : N) (old : gmap string value)
    (o : gmap string jsval) (st : Store) :
  castObjectId (JStr id) = Cast i ->
  collection st !! i = Some old ->
  has_operator o = false -> valid_fields (JObj o) = true -> keyless (JObj o) = true ->
  in_use (collection st) i "id" (indexed ((castPaths workerPaths o).1 ∪ old) "id") = false ->
  exists d st',
    put_worker id (JObj o) st = (Ok (mkResponse 200 (Document d)), st')
    /\ (forall k, defined o k = None \/ k ∉ map path workerPaths ->
          fields d !! k = old !! k)
    /\ (forall j, j <> i -> collection st' !! j = collection st !! j)
    /\ put_worker id (JObj o) st' = (Ok (mkResponse 200 (Document d)), st').
Proof.
  intros Ei Eold Hop Hvalid Hkey Hfree.
  eexists _, _. split;
    [apply (put_worker_plain id i old o st Ei Eold Hop Hvalid Hkey);
     by apply conflict_free|].
  split_and!.
  - intros k Hk. cbn [fields]. apply lookup_union_r. destruct Hk as [Hk|Hk].
    + by apply castPaths_undefined.
    + destruct ((castPaths workerPaths o).1 !! k) as [x|] eqn:E; [|done].
      apply castPaths_in_schema in E. done.
  - intros j Hj. cbn [collection]. by rewrite lookup_insert_ne.
  - pose proof (put_worker_plain id i ((castPaths workerPaths o).1 ∪ old) o
                  (mkStore (<[i := (castPaths workerPaths o).1 ∪ old]> (collection st))
                           (issued st)) Ei) as Hagain.
    cbn [collection issued] in Hagain.
    rewrite lookup_insert_eq, union_twice, insert_insert_eq in Hagain.
    apply Hagain; try done. apply conflict_unmoved. by intros.
Qed.

(** X9.  An update never creates a record: on a key that names no
    record, both update routes leave the store exactly as it was, and
    when they answer at all they answer 200 with a null body. *)
Theorem update_of_unknown_key
    (id : string) (i : N) (b : jsval) (st : Store) :
  castObjectId (JStr id) = Cast i ->
  collection st !! i = None ->
  (put_worker id b st).2 = st
  /\ (put_worker_updateRMPaid id b st).2 = st
  /\ (forall r, (put_worker id b st).1 = Ok r -> r = mkResponse 200 Null)
  /\ (forall r, (put_worker_updateRMPaid id b st).1 = Ok r -> r = mkResponse 200 Null)
  /\ (forall o, b = JObj o ->
        has_operator o = false -> valid_fields b = true -> keyless b = true ->
        put_worker id b st = (Ok (mkResponse 200 Null), st)).
Proof.
  intros Ei En.
  assert (Hput : forall upd,
    ((worker <- findByIdAndUpdate id upd true ;;
      ret (mkResponse 200 (json_of worker))) st).2 = st
    /\ forall r,
       ((worker <- findByIdAndUpdate id upd true ;;
         ret (mkResponse 200 (json_of worker))) st).1 = Ok r ->
       r = mkResponse 200 Null).
  { intros upd. unfold bind. cbn [findByIdAndUpdate model model_with].
    destruct (findByIdAndUpdate_in_unknown workerSchema true id i upd true st Ei En)
      as [Hs Hr].
    destruct (findByIdAndUpdate_in workerSchema true id upd true st) as [[w|e] st1];
      cbn in Hs, Hr |- *; subst st1; [|by split].
    rewrite (Hr w eq_refl). split; [done|]. by intros r [= <-]. }
  split_and!.
  - apply Hput.
  - destruct b; try done; apply Hput.
  - apply Hput.
  - destruct b; try (by intros r [=]); apply Hput.
  - intros o -> Hop Hvalid Hkey. unfold put_worker, bind.
    cbn [findByIdAndUpdate model model_with]. unfold findByIdAndUpdate_in, bind.
    apply andb_true_iff in Hvalid as [Hvalid _].
    assert (Hk : defined o "_id" = None)
      by (cbn in Hkey; by destruct (defined o "_id")).
    by rewrite (castId_ok _ _ _ Ei),
      (castUpdate_in_plain workerSchema true o st Hop Hvalid Hk), En.
Qed.

(** X10.  An update of fields whose body gives a schema path a value that
    cannot be cast is not answered: the cast error leaves the handler,
    and the store is as it was, whether or not the key names a record. *)
Theorem put_worker_uncastable_escapes
    (id : string) (i : N) (o : gmap string jsval)
    (p : SchemaPath) (v : jsval) (m : string) (st : Store) :
  castObjectId (JStr id) = Cast i ->
  has_operator o = false ->
  p ∈ workerSchema -> defined o (path p) = Some v -> castField (type p) v = CastFail m ->
  exists m', put_worker id (JObj o) st = (Throw (CastError m'), st).
Proof.
  intros Ei Hop Hp Hv Hm.
  pose proof (castPaths_error_at workerPaths o p v m
                (workerSchema_workerPaths p Hp) Hv Hm) as Hin.
  assert (Hu : exists m', castUpdate_in workerSchema true (JObj o) st
                          = (Throw (CastError m'), st)).
  { unfold castUpdate_in. rewrite Hop. fold workerPaths.
    destruct (castPaths workerPaths o) as [sets [|[q m'] errs]];
      [by apply not_elem_of_nil in Hin | by exists m']. }
  destruct Hu as [m' Hu]. exists m'.
  apply put_worker_escapes. cbn [findByIdAndUpdate model model_with].
  by apply (findByIdAndUpdate_in_refused workerSchema true id i).
Qed.

(** X11.  A bulk create is answered only for an array without a boolean,
    number or string among its elements: for a body that is an object
    the call of [map] throws, and for an array with such elements
    [new Worker] throws for the first of them, a [TypeError] of the
    [Model] constructor for a string and an [ObjectParameterError] for a
    boolean or a number; both happen before the [try] block, so the
    error leaves the handler and nothing of the batch is stored. *)
Theorem post_workers_malformed (st : Store) :
  (forall o, post_workers (JObj o) st
             = (Throw (TypeError "req.body.map is not a function"), st))
  /\ (forall items v,
      List.find is_primitive items = Some v ->
      exists st',
        post_workers (JArr items) st = (Throw (refusal v), st')
        /\ collection st' = collection st
        /\ (refusal v = ModelArgumentError <-> exists s, v = JStr s)).
Proof.
  split; [done|]. intros items v Hex.
  destruct (mapM_construct_primitive workerSchema true items v st Hex) as (st' & E & Hc).
  exists st'. split_and!; [|done|].
  - unfold post_workers, js_map, bind. cbn [Worker model model_with]. by rewrite E.
  - destruct v; cbn; split; try discriminate; eauto; by intros [? [=]].
Qed.

(** X12.  Under the version of the schema that requires [id], single
    create answers 400 to every body: the handler copies six properties
    and [id] is not one of them, so validation always finds [id]
    missing; nothing is stored. *)
Theorem required_id_rejects_every_create (o : gmap string jsval) (st : Store) :
  exists errs st',
    @post_worker Store (model_in workerSchema_required_id) (JObj o) st
    = (Ok (mkResponse 400 (Message ("Worker validation failed: " ++ describe errs))), st')
    /\ ("id", "Path `id` is required.") ∈ errs
    /\ collection st' = collection st.
Proof.
  rewrite post_worker_object. unfold try_catch, bind.
  cbn [Worker save model_in model_with]. rewrite construct_in_object.
  set (w := build_in _ _ _ (picked o)). unfold save_in, bind, validate_in.
  assert (Hreq : requiredErrors_in workerSchema_required_id (fields (doc w))
                 = [("id", "Path `id` is required.")]).
  { unfold w. rewrite build_in_fields.
    unfold requiredErrors_in, workerSchema_required_id, workerSchema_six.
    cbn [omap list_omap required path andb negb].
    rewrite bool_decide_eq_false_2; [done|].
    intros [x Hx]. apply castPaths_field in Hx.
    rewrite picked_no_id in Hx. by destruct Hx. }
  rewrite Hreq.
  destruct (castErrors w ++ [("id", "Path `id` is required.")])%list
    as [|e errs] eqn:Eerrs; [by destruct (castErrors w)|].
  cbn. eexists (e :: errs), _. split; [reflexivity|]. split; [|done].
  rewrite <- Eerrs. apply elem_of_app. right. left.
Qed.

(** X13.  Under the version of the schema with the six fields only, which
    has no [id] and is given [versionKey: false], single create answers
    201 to every body whose six properties can be cast, whatever the
    store holds: the record has the key the generator drew and exactly
    the cast fields, without version key, and is stored under its
    key. *)
Theorem post_worker_under_six_fields (o : gmap string jsval) (st : Store) :
  forallb (castable (picked o)) workerSchema_six = true ->
  exists d st',
    @post_worker Store (model_with workerSchema_six false) (JObj o) st
    = (Ok (mkResponse 201 (Document d)), st')
    /\ _id d = fresh (dom (collection st) ∪ issued st)
    /\ fields d = (castPaths workerSchema_six (picked o)).1
    /\ fields d !! "__v" = None
    /\ (forall p, p ∈ workerSchema_six -> fields d !! path p = cast_at o p)
    /\ collection st' = <[_id d := fields d]> (collection st).
Proof.
  intros Hvalid. rewrite post_worker_object. unfold try_catch, bind.
  cbn [Worker save model_with]. rewrite construct_in_object.
  set (a := fresh _). set (w := build_in workerSchema_six false a (picked o)).
  destruct (build_in_keyless workerSchema_six false a _ (picked_keyless o)) as [Hid Herrs].
  fold w in Hid, Herrs.
  assert (Hnil : castErrors w = []).
  { apply build_in_errors_nil. apply andb_true_iff. split; [done|].
    unfold castable_id. by rewrite picked_keyless. }
  assert (Hf : fields (doc w) = (castPaths workerSchema_six (picked o)).1)
    by apply build_in_fields.
  unfold save_in, bind. rewrite validate_in_ok by done.
  unfold insertOne_in. cbn [stamp_in collection issued]. rewrite Hid.
  pose proof (newObjectId_fresh st) as Hfresh. fold a in Hfresh.
  rewrite Hfresh, conflict_no_index by done.
  eexists _, _. split; [reflexivity|]. rewrite Hf. split_and!; try done.
  - apply castPaths_undefined, picked_outside. unfold copied. set_solver.
  - intros p Hp.
    rewrite (castPaths_lookup workerSchema_six (picked o) p)
      by (done || apply (bool_decide_unpack _); vm_compute; exact I).
    unfold cast_at. rewrite picked_defined; [done|].
    unfold workerSchema_six in Hp. unfold copied. set_solver.
  - cbn [collection]. by rewrite Hid.
Qed.

End Composition.

(** * The statements above, run on concrete requests *)

Import Plain.

Lemma delete_worker_responses_witness :
  delete_worker ana_key ana_store
  = (Ok (mkResponse 200 (Document (mkDoc ana_id ana_fields))),
     mkStore (delete ana_id (collection ana_store)) (issued ana_store))
  /\ delete_worker ana_key empty_store
     = (Ok (mkResponse 404 (Message "Worker not found")), empty_store)
  /\ @delete_worker unit Offline.model ana_key tt
     = (Ok (mkResponse 400 (Message (message Offline.BufferingTimedOut))), tt).
Proof.
  split; [|split].
  - apply (proj1 (delete_worker_responses ana_key ana_store) ana_id ana_fields);
      reflexivity.
  - apply (proj1 (proj2 (delete_worker_responses ana_key empty_store)) ana_id);
      reflexivity.
  - apply (proj2 (proj2 (delete_worker_responses ana_key empty_store))
             unit Offline.model Offline.BufferingTimedOut tt tt).
    reflexivity.
Defined.

Lemma get_worker_unknown_key_witness :
  castObjectId (JStr ana_key) = Cast ana_id
  /\ collection empty_store !! ana_id = None
  /\ get_worker ana_key empty_store = (Ok (mkResponse 200 Null), empty_store).
Proof.
  split; [reflexivity|]. split; [reflexivity|].
  apply (get_worker_unknown_key ana_key ana_id empty_store); reflexivity.
Defined.

Lemma store_failure_escapes_witness :
  @get_workers unit Offline.model tt = (Throw Offline.BufferingTimedOut, tt)
  /\ @delete_workers unit Offline.model tt = (Throw Offline.BufferingTimedOut, tt)
  /\ get_worker not_a_key ana_store
     = (Throw (CastError "Cast to ObjectId failed"), ana_store)
  /\ put_worker not_a_key (JObj rename_body) ana_store
     = (Throw (CastError "Cast to ObjectId failed"), ana_store)
  /\ put_worker_updateRMPaid ana_key (JObj {[ "RMPaid" := JStr "a lot" ]}) ana_store
     = (Throw (CastError "Cast to Number failed"), ana_store).
Proof.
  split_and!.
  - apply (store_failure_escapes (H := Offline.model) Offline.BufferingTimedOut tt tt).
    reflexivity.
  - apply (store_failure_escapes (H := Offline.model) Offline.BufferingTimedOut tt tt).
    reflexivity.
  - apply (store_failure_escapes (CastError "Cast to ObjectId failed") ana_store ana_store).
    reflexivity.
  - apply (store_failure_escapes (CastError "Cast to ObjectId failed") ana_store ana_store).
    reflexivity.
  - apply (store_failure_escapes (CastError "Cast to Number failed") ana_store ana_store);
      [discriminate | discriminate | reflexivity].
Defined.

Lemma updateRMPaid_frame_witness :
  put_worker_updateRMPaid ana_key (JObj raise_body) ana_store
  = (Ok (mkResponse 200 (Document (mkDoc ana_id (<["RMPaid" := VNumber 150]> ana_fields)))),
     mkStore (<[ana_id := <["RMPaid" := VNumber 150]> ana_fields]> (collection ana_store))
             (issued ana_store))
  /\ put_worker_updateRMPaid ana_key (JObj raise_body)
       (put_worker_updateRMPaid ana_key (JObj raise_body) ana_store).2
     = put_worker_updateRMPaid ana_key (JObj raise_body) ana_store.
Proof.
  destruct (updateRMPaid_frame ana_key ana_id ana_fields (JObj raise_body) ana_store)
    as (_ & _ & Hagain & Hset); [reflexivity | reflexivity |].
  split; [|exact Hagain].
  apply (Hset raise_body (JNum 150) (VNumber 150)); reflexivity.
Defined.



Lemma post_workers_one_invalid_witness :
  (exists errs st',
     post_workers (JArr [JObj ana_body; JObj bad_date_body]) ana_store
     = (Ok (mkResponse 400 (Message ("Worker validation failed: " ++ describe errs))), st')
     /\ collection st' = collection ana_store)
  /\ (exists st',
     post_workers (JArr [JObj bad_date_body; JNum 5]) ana_store
     = (Throw ObjectParameterError, st')
     /\ collection st' = collection ana_store).
Proof.
  split.
  - destruct (post_workers_one_invalid [JObj ana_body; JObj bad_date_body] ana_store)
      as [Hall _]; [vm_compute; reflexivity|].
    destruct Hall as (errs & st' & E & _ & Hc); [vm_compute; reflexivity|].
    by exists errs, st'.
  - destruct (post_workers_one_invalid [JObj bad_date_body; JNum 5] ana_store)
      as [_ Hprim]; [vm_compute; reflexivity|].
    apply (Hprim (JNum 5)). reflexivity.
Defined.

Lemma post_worker_validation_witness :
  (exists errs st',
      post_worker (JObj bad_date_body) ana_store
      = (Ok (mkResponse 400 (Message ("Worker validation failed: " ++ describe errs))), st')
      /\ collection st' = collection ana_store)
  /\ (exists d st',
      post_worker (JObj ana_body) empty_store = (Ok (mkResponse 201 (Document d)), st')
      /\ collection empty_store !! _id d = None
      /\ collection st' = <[_id d := fields d]> (collection empty_store))
  /\ (exists st',
      post_worker (JObj rename_body) first_store
      = (Ok (mkResponse 400 (Message (message (DuplicateKey "id_1")))), st')
      /\ collection st' = collection first_store)
  /\ (exists r st' st'',
      post_worker (JObj ana_body) empty_store = (Ok r, st')
      /\ post_worker (JObj rename_body) st'
         = (Ok (mkResponse 400 (Message (message (DuplicateKey "id_1")))), st'')
      /\ collection st'' = collection st').
Proof.
  split_and!.
  - destruct (proj1 (post_worker_validation bad_date_body ana_store)
                (JStr "not-a-date") "Cast to date failed")
      as (errs & st' & E & _ & _ & Hc); [left; split; reflexivity|].
    by exists errs, st'.
  - destruct (proj1 (proj2 (post_worker_validation ana_body empty_store)))
      as (d & st' & E & _ & Hnew & Hc); [vm_compute; reflexivity..|].
    by exists d, st'.
  - apply (proj1 (proj2 (proj2 (post_worker_validation rename_body first_store))));
      vm_compute; reflexivity.
  - apply (proj2 (proj2 (proj2 (post_worker_validation ana_body empty_store))));
      vm_compute; reflexivity.
Defined.

Lemma mutation_answers_witness :
  (exists new st',
      put_worker ana_key (JObj set_body) ana_store
      = (Ok (mkResponse 200 (Document (mkDoc ana_id new))), st')
      /\ collection st' !! ana_id = Some new)
  /\ (exists st',
      put_worker ana_key (JObj rename_body) ana_store
      = (Ok (mkResponse 200
               (Document (mkDoc ana_id ((castPaths workerPaths rename_body).1 ∪ ana_fields)))),
         st')
      /\ ((castPaths workerPaths rename_body).1 ∪ ana_fields) !! "name"
         = Some (VString "Ana Cruz"))
  /\ (exists st',
      put_worker_updateRMPaid ana_key (JObj raise_body) ana_store
      = (Ok (mkResponse 200 (Document (mkDoc ana_id (<["RMPaid" := VNumber 150]> ana_fields)))),
         st')
      /\ collection st' !! ana_id = Some (<["RMPaid" := VNumber 150]> ana_fields)).
Proof.
  destruct (mutation_answers ana_key ana_id ana_fields ana_store)
    as (Hany & _ & Hput & Hpaid & _); [reflexivity | reflexivity |].
  split_and!.
  - destruct (put_worker ana_key (JObj set_body) ana_store) as [[r|e] st'] eqn:E.
    + destruct (Hany (JObj set_body) r st' E) as (new & -> & Hnew).
      exists new, st'. split; [reflexivity | exact Hnew].
    + vm_compute in E. discriminate.
  - destruct (Hput rename_body) as (st' & E & _); [vm_compute; reflexivity..|].
    exists st'. split; [exact E|]. vm_compute. reflexivity.
  - apply (Hpaid raise_body (JNum 150) (VNumber 150)); reflexivity.
Defined.

(** The scenario of creating Ana, raising her [RMPaid], deleting her and
    reading her again: 201, 200, 200, and then 200 with a null body. *)
Example roster_scenario :
  exists d1 d2 st,
    (r1 <- post_worker (JObj ana_body) ;;
     r2 <- put_worker_updateRMPaid first_key (JObj raise_body) ;;
     r3 <- delete_worker first_key ;;
     r4 <- get_worker first_key ;;
     ret [r1; r2; r3; r4]) empty_store
    = (Ok [ mkResponse 201 (Document d1); mkResponse 200 (Document d2);
            mkResponse 200 (Document d2); mkResponse 200 Null ], st)
    /\ fields d1 !! "RMPaid" = Some (VNumber 100)
    /\ fields d2 !! "RMPaid" = Some (VNumber 150)
    /\ fields d2 !! "name" = Some (VString "Ana")
    /\ collection st = ∅.
Proof.
  eexists _, _, _. split; [vm_compute; reflexivity|].
  split_and!; reflexivity.
Qed.

(** Creating Ana and then Ben: 201, and then 400 from the index on
    [id], which neither record has. *)
Example second_create_scenario :
  exists d1 st,
    (r1 <- post_worker (JObj ana_body) ;;
     r2 <- post_worker (JObj rename_body) ;;
     ret [r1; r2]) empty_store
    = (Ok [ mkResponse 201 (Document d1);
            mkResponse 400
              (Message "E11000 duplicate key error collection: workers index: id_1") ],
       st)
    /\ size (collection st) = 1.
Proof.
  eexists _, _. split; [vm_compute; reflexivity|]. vm_compute. reflexivity.
Qed.

(** C8 does not hold of delete by id: its answer is the record as the
    store held it before the call, and the store holds none afterwards. *)
Lemma delete_worker_answers_prior_state :
  exists d st',
    delete_worker ana_key ana_store = (Ok (mkResponse 200 (Document d)), st')
    /\ collection ana_store !! _id d = Some (fields d)
    /\ collection st' !! _id d = None.
Proof.
  exists (mkDoc ana_id ana_fields), (mkStore (delete ana_id (collection ana_store)) ∅).
  split; [|split]; reflexivity.
Qed.

Lemma post_worker_reads_six_witness :
  post_worker (JObj ana_body_extra) empty_store = post_worker (JObj ana_body) empty_store
  /\ exists d st',
      post_worker (JObj ana_body_extra) empty_store
      = (Ok (mkResponse 201 (Document d)), st')
      /\ _id d = fresh (dom (collection empty_store) ∪ issued empty_store)
      /\ fields d !! "name" = Some (VString "Ana")
      /\ fields d !! "__v" = Some (VNumber 0)
      /\ fields d !! "id" = None
      /\ fields d !! "nationality" = None.
Proof.
  destruct (post_worker_reads_six ana_body_extra ana_body empty_store)
    as (Hsame & _ & Hd).
  { intros k Hk. unfold copied in Hk.
    rewrite !elem_of_cons, elem_of_nil in Hk.
    destruct Hk as [->|[->|[->|[->|[->|[->|[]]]]]]]; reflexivity. }
  split; [exact Hsame|].
  destruct Hd as (d & st' & E & Hid & _ & _ & Hsix & Hv & Hout);
    [vm_compute; reflexivity..|].
  exists d, st'. split_and!; [exact E | exact Hid | | exact Hv | |].
  - etrans; [apply (Hsix (mkPath "name" TString false false));
             [unfold workerSchema; set_solver | unfold copied; set_solver]
            | reflexivity].
  - apply Hout; [|discriminate].
    apply (bool_decide_unpack _). vm_compute. exact I.
  - apply Hout; [|discriminate].
    apply (bool_decide_unpack _). vm_compute. exact I.
Defined.

(** ** The further properties, run on concrete requests *)

Lemma guarded_handlers_answer_witness :
  @post_worker unit Offline.model (JObj ana_body) tt
  = (Ok (mkResponse 400 (Message (message Offline.BufferingTimedOut))), tt)
  /\ @post_workers unit Offline.model (JArr [JObj ana_body]) tt
     = (Ok (mkResponse 400 (Message (message Offline.BufferingTimedOut))), tt)
  /\ post_worker (JObj ana_body) empty_store
     = (Ok (mkResponse 201 (Document (mkDoc 0 ana_saved))), first_store).
Proof.
  split_and!.
  - destruct (proj1 (proj2 (guarded_handlers_answer (H := Offline.model) tt))
                ana_body (mkInstance (mkDoc 0 ∅) []) tt eq_refl)
      as [(w' & st' & Hs & _)|(e & st' & Hs & E)]; [discriminate|].
    injection Hs as <- <-. exact E.
  - destruct (proj2 (proj2 (guarded_handlers_answer (H := Offline.model) tt))
                [JObj ana_body] [mkInstance (mkDoc 0 ∅) []] tt eq_refl)
      as [(ws' & st' & Hs & _)|(e & st' & Hs & E)]; [discriminate|].
    injection Hs as <- <-. exact E.
  - assert (E0 : Worker (JObj (picked ana_body)) empty_store
                 = (Ok (mkInstance (mkDoc 0 ana_fields) []), mkStore ∅ {[ 0%N ]}))
      by (vm_compute; reflexivity).
    assert (E1 : save (mkInstance (mkDoc 0 ana_fields) []) (mkStore ∅ {[ 0%N ]})
                 = (Ok (mkInstance (mkDoc 0 ana_saved) []), first_store))
      by (vm_compute; reflexivity).
    destruct (proj1 (proj2 (guarded_handlers_answer empty_store))
                ana_body (mkInstance (mkDoc 0 ana_fields) [])
                (mkStore ∅ {[ 0%N ]}) E0)
      as [(w' & st' & Hs & E)|(e & st' & Hs & _)];
      rewrite E1 in Hs; [|discriminate].
    injection Hs as <- <-. exact E.
Defined.


Lemma create_keeps_stored_records_witness :
  collection ana_store !! ana_id = Some ana_fields
  /\ collection (post_worker (JObj ana_body) ana_store).2 !! ana_id = Some ana_fields
  /\ collection (post_workers (JArr [twin; twin]) ana_store).2 !! ana_id = Some ana_fields.
Proof.
  split; [reflexivity|].
  split.
  - apply (create_keeps_stored_records (JObj ana_body) ana_store ana_id ana_fields).
    reflexivity.
  - apply (create_keeps_stored_records (JArr [twin; twin]) ana_store ana_id ana_fields).
    reflexivity.
Defined.

Lemma created_record_is_readable_witness :
  post_worker (JObj ana_body) empty_store
  = (Ok (mkResponse 201 (Document (mkDoc 0 ana_saved))), first_store)
  /\ get_worker first_key first_store
     = (Ok (mkResponse 200 (Document (mkDoc 0 ana_saved))), first_store).
Proof.
  split; [vm_compute; reflexivity|].
  apply (created_record_is_readable ana_body empty_store first_store
           (mkDoc 0 ana_saved) first_key); vm_compute; reflexivity.
Defined.

Lemma create_then_delete_restores_witness :
  exists st2,
    delete_worker first_key first_store
    = (Ok (mkResponse 200 (Document (mkDoc 0 ana_saved))), st2)
    /\ collection st2 = collection empty_store.
Proof.
  apply (create_then_delete_restores ana_body empty_store first_store
           (mkDoc 0 ana_saved) first_key); vm_compute; reflexivity.
Defined.

Lemma delete_worker_removes_one_witness :
  size (collection ana_store) = S (size (collection (delete_worker ana_key ana_store).2))
  /\ delete_worker ana_key (delete_worker ana_key ana_store).2
     = (Ok (mkResponse 404 (Message "Worker not found")),
        (delete_worker ana_key ana_store).2).
Proof.
  destruct (delete_worker_removes_one ana_key ana_id ana_fields ana_store)
    as (_ & Hsize & Hagain); [reflexivity | reflexivity |].
  by split.
Defined.

Lemma put_worker_frame_witness :
  exists d st',
    put_worker ana_key (JObj tagged_body) ana_store
    = (Ok (mkResponse 200 (Document d)), st')
    /\ fields d !! "RMPaid" = ana_fields !! "RMPaid"
    /\ fields d !! "nationality" = ana_fields !! "nationality".
Proof.
  destruct (put_worker_frame ana_key ana_id ana_fields tagged_body ana_store)
    as (d & st' & E & Hframe & _); [vm_compute; reflexivity..|].
  exists d, st'. split; [exact E|]. split.
  - apply Hframe. left. vm_compute. reflexivity.
  - apply Hframe. right. apply (bool_decide_unpack _). vm_compute. exact I.
Defined.

Lemma update_of_unknown_key_witness :
  put_worker ana_key (JObj rename_body) empty_store
  = (Ok (mkResponse 200 Null), empty_store)
  /\ (put_worker_updateRMPaid ana_key (JObj raise_body) empty_store).2 = empty_store.
Proof.
  destruct (update_of_unknown_key ana_key ana_id (JObj rename_body) empty_store)
    as (_ & _ & _ & _ & Hput); [reflexivity | reflexivity |].
  split; [by apply (Hput rename_body)|].
  apply (update_of_unknown_key ana_key ana_id (JObj raise_body) empty_store);
    reflexivity.
Defined.

Lemma put_worker_uncastable_escapes_witness :
  exists m', put_worker ana_key (JObj costly_body) ana_store
             = (Throw (CastError m'), ana_store).
Proof.
  apply (put_worker_uncastable_escapes ana_key ana_id costly_body
           (mkPath "RMPaid" TNumber false false) (JStr "a lot")
           "Cast to Number failed" ana_store);
    try reflexivity.
  unfold workerSchema. set_solver.
Defined.

Lemma post_workers_malformed_witness :
  (exists st',
     post_workers (JArr [JObj ana_body; JNum 5]) ana_store
     = (Throw ObjectParameterError, st')
     /\ collection st' = collection ana_store)
  /\ (exists st',
     post_workers (JArr [JObj ana_body; JStr "Ben"; JNum 5]) ana_store
     = (Throw ModelArgumentError, st')
     /\ collection st' = collection ana_store).
Proof.
  split.
  - destruct (proj2 (post_workers_malformed ana_store) [JObj ana_body; JNum 5] (JNum 5))
      as (st' & E & Hc & _); [reflexivity|].
    by exists st'.
  - destruct (proj2 (post_workers_malformed ana_store)
                [JObj ana_body; JStr "Ben"; JNum 5] (JStr "Ben"))
      as (st' & E & Hc & _); [reflexivity|].
    by exists st'.
Defined.

Lemma post_worker_under_six_fields_witness :
  exists d st',
    @post_worker Store (model_with Variant.workerSchema_six false) (JObj rename_body) first_store
    = (Ok (mkResponse 201 (Document d)), st')
    /\ fields d !! "name" = Some (VString "Ana Cruz")
    /\ fields d !! "__v" = None.
Proof.
  destruct (post_worker_under_six_fields rename_body first_store)
    as (d & st' & E & _ & Hf & Hv & _); [vm_compute; reflexivity|].
  exists d, st'. split; [exact E|]. split; [|exact Hv].
  rewrite Hf. vm_compute. reflexivity.
Defined.
